(** * ai-config-sync: a shallow embedding of [scripts/ai-config-sync.py]

    The development follows the script top to bottom: the Python string
    primitives the script relies on, the MD5 digest behind [file_hash],
    a small file store with symbolic links, and then the script's own
    functions ([backup_file], [markdown_to_mdc], [mdc_to_markdown],
    [InstructionSyncer], [RulesSyncer], [MCPSyncer.create_template],
    [ConfigSyncer._create_gitignore_entries]).

    Text is a Python [str] whose code points are below 256, written as a
    Rocq [string]; on that domain [str.strip], [str.lower],
    [str.splitlines] are exactly the functions below. *)

From Stdlib Require Import ZArith NArith Ascii String List Bool Lia.
From stdpp Require Import base option gmap strings list fin_maps.

Local Open Scope string_scope.
Local Open Scope Z_scope.

(** ** Python string primitives *)

Module Py.

(** [c.isspace()] for a code point below 256. *)
Definition isspace (c : ascii) : bool :=
  let n := N_of_ascii c in
  (((9 <=? n) && (n <=? 13)) || ((28 <=? n) && (n <=? 32))
   || (n =? 133) || (n =? 160))%N.

(** [c.lower()] for a code point below 256: A-Z and the Latin-1 capitals
    (192..222 without the multiplication sign 215) move up by 32. *)
Definition lower_char (c : ascii) : ascii :=
  let n := N_of_ascii c in
  if (((65 <=? n) && (n <=? 90))
      || ((192 <=? n) && (n <=? 222) && negb (n =? 215)))%N
  then ascii_of_N (n + 32) else c.

Fixpoint lower (s : string) : string :=
  match s with
  | EmptyString => EmptyString
  | String c r => String (lower_char c) (lower r)
  end.

(** [c in chars] for a one-character [c]. *)
Fixpoint contains (c : ascii) (s : string) : bool :=
  match s with
  | EmptyString => false
  | String a r => if Ascii.eqb a c then true else contains c r
  end.

(** [s.lstrip] / [s.rstrip] / [s.strip], parametrised by the set of
    characters that is removed at the ends. *)
Fixpoint lstrip_by (p : ascii -> bool) (s : string) : string :=
  match s with
  | EmptyString => EmptyString
  | String c r => if p c then lstrip_by p r else s
  end.

Fixpoint rstrip_by (p : ascii -> bool) (s : string) : string :=
  match s with
  | EmptyString => EmptyString
  | String c r =>
      match rstrip_by p r with
      | EmptyString => if p c then EmptyString else String c EmptyString
      | r' => String c r'
      end
  end.

Definition strip_by (p : ascii -> bool) (s : string) : string :=
  rstrip_by p (lstrip_by p s).

(** Every character of [s] is in the set. *)
Fixpoint all_chars (p : ascii -> bool) (s : string) : bool :=
  match s with
  | EmptyString => true
  | String c r => p c && all_chars p r
  end.

(** [s.strip()] *)
Definition strip (s : string) : string := strip_by isspace s.

(** [s.strip(chars)] *)
Definition strip_chars (chars : string) (s : string) : string :=
  strip_by (fun c => contains c chars) s.

(** [s.startswith(p)] *)
Fixpoint startswith (s p : string) : bool :=
  match p with
  | EmptyString => true
  | String b p' =>
      match s with
      | EmptyString => false
      | String a s' => Ascii.eqb a b && startswith s' p'
      end
  end.

(** [s.find(sub, start)] for [start >= 0]: the lowest index [i >= start]
    at which [sub] occurs in [s], or [-1]. *)
Definition shift (r : Z) : Z := if r <? 0 then -1 else r + 1.

Fixpoint find (s sub : string) (start : nat) : Z :=
  match start with
  | O =>
      if startswith s sub then 0
      else match s with
           | EmptyString => -1
           | String _ r => shift (find r sub O)
           end
  | S k =>
      match s with
      | EmptyString => -1
      | String _ r => shift (find r sub k)
      end
  end.

(** [s[n:]] and [s[:n]] for [n >= 0]; [s[a:b]] is [take (b - a) (drop a s)]. *)
Fixpoint drop (n : nat) (s : string) : string :=
  match n, s with
  | O, _ => s
  | S k, String _ r => drop k r
  | S _, EmptyString => EmptyString
  end.

Fixpoint take (n : nat) (s : string) : string :=
  match n, s with
  | S k, String c r => String c (take k r)
  | _, _ => EmptyString
  end.

Definition slice (s : string) (a b : nat) : string := take (b - a) (drop a s).

(** [s.split(sep)] for a one-character separator: never empty. *)
Fixpoint split (sep : ascii) (s : string) : list string :=
  match s with
  | EmptyString => [EmptyString]
  | String c r =>
      if Ascii.eqb c sep then EmptyString :: split sep r
      else match split sep r with
           | h :: t => String c h :: t
           | [] => [String c EmptyString]
           end
  end.

(** [s.split(sep, 1)] for a one-character separator. *)
Fixpoint split1 (sep : ascii) (s : string) : list string :=
  match s with
  | EmptyString => [EmptyString]
  | String c r =>
      if Ascii.eqb c sep then [EmptyString; r]
      else match split1 sep r with
           | h :: t => String c h :: t
           | [] => [String c EmptyString]
           end
  end.

(** Line boundaries of [str.splitlines] below 256. *)
Definition is_linebreak (c : ascii) : bool :=
  let n := N_of_ascii c in
  (((10 <=? n) && (n <=? 13)) || ((28 <=? n) && (n <=? 30)) || (n =? 133))%N.

(** [len(s.splitlines())]: every line break ends a line (CR LF counts
    once) and a non-empty remainder is a last line. *)
Fixpoint count_lines (pending : bool) (s : string) : nat :=
  match s with
  | EmptyString => if pending then 1%nat else 0%nat
  | String c r =>
      if is_linebreak c then
        match r with
        | String d r' =>
            if Ascii.eqb c "013" && Ascii.eqb d "010"
            then S (count_lines false r')
            else S (count_lines false r)
        | EmptyString => 1%nat
        end
      else count_lines true r
  end.

Definition splitlines_len (s : string) : nat := count_lines false s.

(** Reading a file in text mode with the default [newline=None]:
    CR LF and a lone CR both arrive as LF. *)
Fixpoint universal_newlines (s : string) : string :=
  match s with
  | EmptyString => EmptyString
  | String c r =>
      if Ascii.eqb c "013" then
        match r with
        | String d r' =>
            if Ascii.eqb d "010" then String "010" (universal_newlines r')
            else String "010" (universal_newlines r)
        | EmptyString => String "010" EmptyString
        end
      else String c (universal_newlines r)
  end.

(** [sub in s] for two strings: [sub] occurs somewhere in [s]. *)
Definition contains_str (sub s : string) : bool := negb (find s sub 0 =? -1).

(** [sep.join(l)] *)
Fixpoint join (sep : string) (l : list string) : string :=
  match l with
  | [] => EmptyString
  | [x] => x
  | x :: r => x +:+ sep +:+ join sep r
  end.

End Py.

(** ** The MD5 digest used by [file_hash] ([hashlib.md5(...).hexdigest()]) *)

Module MD5.
Local Open Scope N_scope.

Definition mask32 (x : N) : N := N.land x 0xffffffff.
Definition add32 (x y : N) : N := mask32 (x + y).
Definition not32 (x : N) : N := N.lxor x 0xffffffff.
Definition rotl32 (x c : N) : N :=
  mask32 (N.lor (N.shiftl x c) (N.shiftr x (32 - c))).

Definition shifts : list N :=
  [7; 12; 17; 22; 7; 12; 17; 22; 7; 12; 17; 22; 7; 12; 17; 22;
   5; 9; 14; 20; 5; 9; 14; 20; 5; 9; 14; 20; 5; 9; 14; 20;
   4; 11; 16; 23; 4; 11; 16; 23; 4; 11; 16; 23; 4; 11; 16; 23;
   6; 10; 15; 21; 6; 10; 15; 21; 6; 10; 15; 21; 6; 10; 15; 21].

Definition sines : list N :=
  [0xd76aa478; 0xe8c7b756; 0x242070db; 0xc1bdceee;
   0xf57c0faf; 0x4787c62a; 0xa8304613; 0xfd469501;
   0x698098d8; 0x8b44f7af; 0xffff5bb1; 0x895cd7be;
   0x6b901122; 0xfd987193; 0xa679438e; 0x49b40821;
   0xf61e2562; 0xc040b340; 0x265e5a51; 0xe9b6c7aa;
   0xd62f105d; 0x02441453; 0xd8a1e681; 0xe7d3fbc8;
   0x21e1cde6; 0xc33707d6; 0xf4d50d87; 0x455a14ed;
   0xa9e3e905; 0xfcefa3f8; 0x676f02d9; 0x8d2a4c8a;
   0xfffa3942; 0x8771f681; 0x6d9d6122; 0xfde5380c;
   0xa4beea44; 0x4bdecfa9; 0xf6bb4b60; 0xbebfbc70;
   0x289b7ec6; 0xeaa127fa; 0xd4ef3085; 0x04881d05;
   0xd9d4d039; 0xe6db99e5; 0x1fa27cf8; 0xc4ac5665;
   0xf4292244; 0x432aff97; 0xab9423a7; 0xfc93a039;
   0x655b59c3; 0x8f0ccc92; 0xffeff47d; 0x85845dd1;
   0x6fa87e4f; 0xfe2ce6e0; 0xa3014314; 0x4e0811a1;
   0xf7537e82; 0xbd3af235; 0x2ad7d2bb; 0xeb86d391].

Definition at_ (l : list N) (i : N) : N := nth (N.to_nat i) l 0.

(** The round function and the message-word index of step [i]. *)
Definition round_fg (i b c d : N) : N * N :=
  if i <? 16 then (N.lor (N.land b c) (N.land (not32 b) d), i)
  else if i <? 32 then
    (N.lor (N.land d b) (N.land (not32 d) c), (5 * i + 1) mod 16)
  else if i <? 48 then (N.lxor (N.lxor b c) d, (3 * i + 5) mod 16)
  else (N.lxor c (N.lor b (not32 d)), (7 * i) mod 16).

Definition step (M : list N) (st : N * N * N * N) (i : N) : N * N * N * N :=
  let '(a, b, c, d) := st in
  let '(f, g) := round_fg i b c d in
  let f' := add32 (add32 (add32 f a) (at_ sines i)) (at_ M g) in
  (d, add32 b (rotl32 f' (at_ shifts i)), b, c).

(** Sixteen little-endian 32-bit words of a 64-byte block. *)
Fixpoint words_le (n : nat) (bytes : list N) : list N :=
  match n with
  | O => []
  | S k =>
      match bytes with
      | b0 :: b1 :: b2 :: b3 :: r =>
          (b0 + 256 * (b1 + 256 * (b2 + 256 * b3))) :: words_le k r
      | _ => []
      end
  end.

Definition steps : list N := map N.of_nat (seq 0 64).

Definition process_block (st : N * N * N * N) (block : list N)
  : N * N * N * N :=
  let '(a0, b0, c0, d0) := st in
  let '(a, b, c, d) := fold_left (step (words_le 16 block)) steps st in
  (add32 a0 a, add32 b0 b, add32 c0 c, add32 d0 d).

Fixpoint le_bytes (n : nat) (x : N) : list N :=
  match n with
  | O => []
  | S k => (x mod 256) :: le_bytes k (x / 256)
  end.

(** Padding: one 0x80 byte, zeros up to 56 modulo 64, then the bit length
    as eight little-endian bytes. *)
Definition pad (msg : list N) : list N :=
  let len := N.of_nat (length msg) in
  let zeros := N.to_nat ((119 - len mod 64) mod 64) in
  msg ++ [0x80] ++ repeat 0 zeros ++ le_bytes 8 ((8 * len) mod 2 ^ 64).

Fixpoint blocks (fuel : nat) (bytes : list N) : list (list N) :=
  match fuel with
  | O => []
  | S k =>
      match bytes with
      | [] => []
      | _ => firstn 64 bytes :: blocks k (skipn 64 bytes)
      end
  end.

Definition digest (msg : list N) : list N :=
  let padded := pad msg in
  let '(a, b, c, d) :=
    fold_left process_block (blocks (length padded) padded)
      (0x67452301, 0xefcdab89, 0x98badcfe, 0x10325476) in
  le_bytes 4 a ++ le_bytes 4 b ++ le_bytes 4 c ++ le_bytes 4 d.

Definition hex_digit (n : N) : ascii :=
  if n <? 10 then ascii_of_N (48 + n) else ascii_of_N (87 + n).

Fixpoint hex (bytes : list N) : string :=
  match bytes with
  | [] => EmptyString
  | b :: r => String (hex_digit (b / 16)) (String (hex_digit (b mod 16)) (hex r))
  end.

(** UTF-8 encoding of a text whose code points are below 256. *)
Fixpoint utf8 (s : string) : list N :=
  match s with
  | EmptyString => []
  | String c r =>
      let n := N_of_ascii c in
      if n <? 128 then n :: utf8 r
      else (192 + n / 64) :: (128 + n mod 64) :: utf8 r
  end.

(** [hashlib.md5(data).hexdigest()] of the encoded text. *)
Definition hexdigest (s : string) : string := hex (digest (utf8 s)).

End MD5.

(** ** The file store

    A path is the list of its components below the project directory.
    [links] holds the symbolic links, each with the path it resolves to
    ([Path.resolve]); a path that is no link resolves to itself. [files]
    holds the decoded content of every regular file under its resolved
    path, so reading and writing through a link reach the link's target.
    [dirs] records the directories made by [ensure_dir]. Operating-system
    failures (permissions, full disk) are outside the model. *)

Abbreviation path := (list string) (only parsing).

Record fs : Type := mkFs {
  links : gmap (list string) (list string);
  files : gmap (list string) string;
  dirs : gset (list string)
}.

Module FS.

(** [p.resolve()] *)
Definition resolve (m : fs) (p : path) : path := default p (links m !! p).

(** [p.is_symlink()] *)
Definition is_symlink (m : fs) (p : path) : bool :=
  bool_decide (is_Some (links m !! p)).

(** [p.read_bytes()], as the decoded text it encodes; [None] when the
    file is missing (Python raises). *)
Definition read_bytes (m : fs) (p : path) : option string :=
  files m !! resolve m p.

(** [p.exists()] for a file path: links are followed, and a link whose
    target is missing does not exist. *)
Definition exists_ (m : fs) (p : path) : bool :=
  bool_decide (is_Some (read_bytes m p)).

(** [p.read_text(encoding="utf-8")]: text mode, universal newlines. *)
Definition read_text (m : fs) (p : path) : option string :=
  Py.universal_newlines <$> read_bytes m p.

(** [p.write_text(s, encoding="utf-8")] on a POSIX system. *)
Definition write_text (p : path) (s : string) (m : fs) : fs :=
  mkFs (links m) (<[resolve m p := s]> (files m)) (dirs m).

(** [shutil.copy2(src, dst)]: the bytes of [src] are written to [dst];
    [None] when [src] is missing or both name the same file
    ([SameFileError]). *)
Definition copy2 (src dst : path) (m : fs) : option fs :=
  match read_bytes m src with
  | None => None
  | Some b =>
      if decide (resolve m src = resolve m dst) then None
      else Some (mkFs (links m) (<[resolve m dst := b]> (files m)) (dirs m))
  end.

(** The directory and all its ancestors. *)
Fixpoint ancestors (p : path) : list path :=
  match p with
  | [] => [[]]
  | c :: r => [] :: map (cons c) (ancestors r)
  end.

(** [p.name] *)
Definition name (p : path) : string := List.last p "".

(** [with p.open("a") as f: f.write(s)] on a POSIX system: the text goes
    after what the file holds; a missing file is created. *)
Definition append_text (p : path) (s : string) (m : fs) : fs :=
  write_text p (default EmptyString (read_bytes m p) +:+ s) m.

(** [p.exists()] for a path that may be a directory: a file is found
    there, or the path is one of the recorded directories. *)
Definition path_exists (m : fs) (p : path) : bool :=
  exists_ m p || bool_decide (p ∈ dirs m).

(** [p.parent] *)
Definition parent (p : path) : path := removelast p.

End FS.

(** [ensure_dir]: [path.mkdir(parents=True, exist_ok=True)] *)
Definition ensure_dir (p : path) (m : fs) : fs :=
  mkFs (links m) (files m) (dirs m ∪ list_to_set (FS.ancestors p)).

(** [file_hash]: [None] for a missing file, else the MD5 hex digest of
    its bytes. *)
Definition file_hash (m : fs) (p : path) : option string :=
  if negb (FS.exists_ m p) then None
  else MD5.hexdigest <$> FS.read_bytes m p.

(** ** Time stamps: [datetime.now().strftime("%Y%m%d_%H%M%S")] *)

Record datetime : Type := mkDatetime {
  year : N; month : N; day : N;
  hour : N; minute : N; second : N
}.

Definition digit (n : N) : ascii := ascii_of_N (48 + n mod 10).

Definition pad2 (n : N) (rest : string) : string :=
  String (digit (n / 10)) (String (digit n) rest).

Definition pad4 (n : N) (rest : string) : string :=
  String (digit (n / 1000)) (String (digit (n / 100)) (pad2 n rest)).


Definition strftime (t : datetime) : string :=
  pad4 (year t) (pad2 (month t) (pad2 (day t)
    (String "_" (pad2 (hour t) (pad2 (minute t) (pad2 (second t) "")))))).

(** [backup_file], with the clock reading [now] made explicit. The result
    is the backup path ([None] when there is nothing to back up) and the
    new store; the outer [None] is an exception of [shutil.copy2]. *)
Definition backup_file (now : datetime) (p backup_dir : path) (m : fs)
  : option (option path * fs) :=
  if negb (FS.exists_ m p) then Some (None, m)
  else
    let timestamp := strftime now in
    let backup_path :=
      (backup_dir ++ [FS.name p +:+ "." +:+ timestamp +:+ ".bak"])%list in
    let m1 := ensure_dir backup_dir m in
    m2 ← FS.copy2 p backup_path m1;
    Some (Some backup_path, m2).

(** The path [backup_file] gives its copy. *)
Definition backup_path_of (now : datetime) (p backup_dir : path) : path :=
  (backup_dir ++ [FS.name p +:+ "." +:+ strftime now +:+ ".bak"])%list.

(** ** MDC format conversion *)

Definition LF : string := String "010" EmptyString.
Definition DQ : string := String "034" EmptyString.
Definition SQ : string := "'".

(** [str(b)] *)
Definition str_bool (b : bool) : string := if b then "True" else "False".

(** Truth value of a string in a condition: non-empty. *)
Definition truthy (s : string) : bool :=
  match s with EmptyString => false | _ => true end.

(** [markdown_to_mdc] *)
Definition markdown_to_mdc (content description globs : string)
    (always_apply : bool) : string :=
  let frontmatter := "---" +:+ LF in
  let frontmatter :=
    if truthy description
    then frontmatter +:+ ("description: " +:+ DQ +:+ description +:+ DQ +:+ LF)
    else frontmatter in
  let frontmatter :=
    if truthy globs then frontmatter +:+ ("globs: " +:+ globs +:+ LF)
    else frontmatter in
  let frontmatter :=
    frontmatter +:+ ("alwaysApply: " +:+ Py.lower (str_bool always_apply) +:+ LF) in
  let frontmatter := frontmatter +:+ ("---" +:+ LF +:+ LF) in
  frontmatter +:+ content.

(** A metadata value: the parser stores a [str] or a [bool]. *)
Inductive value : Type :=
  | VStr (s : string)
  | VBool (b : bool).

(** The body of the loop over the front-matter lines. *)
Definition parse_line (metadata : gmap string value) (line : string)
  : gmap string value :=
  if Py.contains ":" line then
    match Py.split1 ":" line with
    | [key; value] =>
        let key := Py.strip key in
        let value := Py.strip_chars SQ (Py.strip_chars DQ (Py.strip value)) in
        let value :=
          if String.eqb (Py.lower value) "true" then VBool true
          else if String.eqb (Py.lower value) "false" then VBool false
          else VStr value in
        <[key := value]> metadata
    | _ => metadata
    end
  else metadata.

(** [mdc_to_markdown] *)
Definition mdc_to_markdown (content : string) : string * gmap string value :=
  if negb (Py.startswith content "---") then (content, ∅)
  else
    let end_idx := Py.find content "---" 3 in
    if end_idx =? -1 then (content, ∅)
    else
      let frontmatter := Py.strip (Py.slice content 3 (Z.to_nat end_idx)) in
      let markdown := Py.strip (Py.drop (Z.to_nat (end_idx + 3)) content) in
      let metadata := fold_left parse_line (Py.split "010" frontmatter) ∅ in
      (markdown, metadata).

(** ** AGENTS.md / CLAUDE.md synchronisation ([InstructionSyncer]) *)

(** What one pass did: the branch of [sync] that was taken. The script
    itself returns [False] for [Diverged] and [True] otherwise
    ([returned]). [Diverged] carries the two line counts it prints. *)
Inductive outcome : Type :=
  | Bootstrapped
  | Migrated
  | ReferenceCreated
  | InSync
  | Diverged (agents_lines claude_lines : nat).

Definition returned (o : outcome) : bool :=
  match o with Diverged _ _ => false | _ => true end.

Module InstructionSyncer.

Definition agents_md : path := ["AGENTS.md"].
Definition claude_md : path := ["CLAUDE.md"].

Definition template : string :=
"# Project Instructions for AI Coding Assistants

## Overview
This file provides instructions and context for AI coding assistants (Claude Code, Cursor, etc.).
It follows the AGENTS.md standard: https://agents.md/

## Project Context
<!-- Add your project description here -->

## Coding Standards
- Follow existing code style and conventions
- Write clear, self-documenting code
- Include appropriate error handling
- Add tests for new functionality

## Architecture
<!-- Describe your project's architecture -->

## Common Commands
```bash
# Development
npm run dev          # Start development server
npm run build        # Build for production
npm run test         # Run tests
npm run lint         # Run linter
```

## File Structure
<!-- Describe important directories and files -->

## Dependencies
<!-- List key dependencies and their purposes -->

## Notes
<!-- Any additional context for the AI assistant -->
".

Definition reference_content : string := "See @AGENTS.md" +:+ LF.

(** [_create_template] *)
Definition _create_template (dry_run : bool) (m : fs) : fs :=
  if negb dry_run then FS.write_text agents_md template m else m.

(** [_create_claude_reference] *)
Definition _create_claude_reference (dry_run : bool) (m : fs) : fs :=
  if FS.is_symlink m claude_md
     && bool_decide (FS.resolve m claude_md = FS.resolve m agents_md)
  then m
  else if negb dry_run then FS.write_text claude_md reference_content m
  else m.

(** The test for a reference stub in [_reconcile_both]. *)
Definition is_reference (claude_text : string) : bool :=
  let claude_content := Py.lower (Py.strip claude_text) in
  Py.startswith claude_content "see @agents.md"
  || Py.startswith claude_content "see agents.md".

(** [_reconcile_both] *)
Definition _reconcile_both (m : fs) : option (outcome * fs) :=
  let agents_hash := file_hash m agents_md in
  let claude_hash := file_hash m claude_md in
  claude_text ← FS.read_text m claude_md;
  if is_reference claude_text then Some (InSync, m)
  else if negb (bool_decide (agents_hash = claude_hash)) then
    agents_text ← FS.read_text m agents_md;
    claude_text' ← FS.read_text m claude_md;
    Some (Diverged (Py.splitlines_len agents_text)
                   (Py.splitlines_len claude_text'), m)
  else Some (InSync, m).

(** [sync]; [None] stands for an uncaught exception. *)
Definition sync (dry_run : bool) (m : fs) : option (outcome * fs) :=
  let agents_exists := FS.exists_ m agents_md in
  let claude_exists := FS.exists_ m claude_md in
  if negb agents_exists && negb claude_exists then
    let m1 := _create_template dry_run m in
    let m2 := _create_claude_reference dry_run m1 in
    Some (Bootstrapped, m2)
  else if negb agents_exists && claude_exists then
    m1 ← (if negb dry_run then FS.copy2 claude_md agents_md m else Some m);
    let m2 := _create_claude_reference dry_run m1 in
    Some (Migrated, m2)
  else if agents_exists && negb claude_exists then
    let m1 := _create_claude_reference dry_run m in
    Some (ReferenceCreated, m1)
  else if agents_exists && claude_exists then _reconcile_both m
  else Some (InSync, m) (* the closing [return True], which no state reaches *).

End InstructionSyncer.

(** ** Rules synchronisation ([RulesSyncer]) *)

Module RulesSyncer.

Definition cursor_rules : path := [".cursor"; "rules"].
Definition cursorrules_legacy : path := [".cursorrules"].
Definition backup_dir : path := [".cursor"; "backups"].
Definition new_path : path := (cursor_rules ++ ["project-rules.mdc"])%list.
Definition provenance : string := "Migrated from legacy .cursorrules".

(** [_migrate_legacy_cursorrules]; the result is the returned [bool] and
    the new store, [None] an uncaught exception (the legacy file cannot
    be read, or the copy fails). *)
Definition _migrate_legacy_cursorrules (dry_run : bool) (now : datetime)
    (m : fs) : option (bool * fs) :=
  content ← FS.read_text m cursorrules_legacy;
  let mdc_content := markdown_to_mdc content provenance "" true in
  if negb dry_run then
    let m1 := ensure_dir cursor_rules m in
    let m2 := FS.write_text new_path mdc_content m1 in
    '(_, m3) ← backup_file now cursorrules_legacy backup_dir m2;
    Some (true, m3)
  else Some (true, m).

(** Where the legacy file is backed up at time [now]. *)
Definition backup_path (now : datetime) : path :=
  backup_path_of now cursorrules_legacy backup_dir.

(** The text written to [new_path] for a legacy text. *)
Definition mdc_of (content : string) : string :=
  markdown_to_mdc content provenance "" true.

(** [sync]: the migration when the legacy file is there, then the rules
    directory; the listing of the rule files only prints. *)
Definition sync (dry_run : bool) (now : datetime) (m : fs) : option (bool * fs) :=
  let success := true in
  '(success, m1) ←
    (if FS.exists_ m cursorrules_legacy then
       '(r, m') ← _migrate_legacy_cursorrules dry_run now m;
       Some (r && success, m')
     else Some (success, m));
  let m2 :=
    if negb (FS.path_exists m1 cursor_rules) then
      if negb dry_run then ensure_dir cursor_rules m1 else m1
    else m1 in
  Some (success, m2).

End RulesSyncer.

(** ** JSON files

    [safe_write_json], given the text [json.dumps(data, indent=2,
    ensure_ascii=False)] of its data; the [IOError] it catches is an
    operating-system failure. *)
Definition safe_write_json (p : path) (text : string) (dry_run : bool) (m : fs)
  : bool * fs :=
  if dry_run then (true, m)
  else (true, FS.write_text p text (ensure_dir (FS.parent p) m)).

(** ** MCP configuration ([MCPSyncer.create_template]) *)

Module MCPSyncer.

Definition mcp_json : path := [".mcp.json"].

(** The serialised template. *)
Definition template_text : string :=
  "{
  " +:+ DQ +:+
  "mcpServers" +:+ DQ +:+
  ": {
    " +:+ DQ +:+
  "# Add your MCP servers here" +:+ DQ +:+
  ": {
      " +:+ DQ +:+
  "command" +:+ DQ +:+
  ": " +:+ DQ +:+
  "npx" +:+ DQ +:+
  ",
      " +:+ DQ +:+
  "args" +:+ DQ +:+
  ": [
        " +:+ DQ +:+
  "-y" +:+ DQ +:+
  ",
        " +:+ DQ +:+
  "example-mcp-server" +:+ DQ +:+
  "
      ],
      " +:+ DQ +:+
  "env" +:+ DQ +:+
  ": {}
    }
  }
}".

(** [create_template] *)
Definition create_template (dry_run : bool) (m : fs) : bool * fs :=
  if FS.exists_ m mcp_json then (false, m)
  else
    let m1 :=
      if negb dry_run then snd (safe_write_json mcp_json template_text false m)
      else m in
    (true, m1).

End MCPSyncer.

(** ** The orchestrator's [.gitignore] entries ([ConfigSyncer]) *)

Module ConfigSyncer.

Definition gitignore : path := [".gitignore"].

Definition entries_to_add : list string :=
  [LF +:+ "# AI Assistant local configs (not tracked)";
   ".claude/settings.local.json";
   ".claude/backups/"].

(** [_create_gitignore_entries] *)
Definition _create_gitignore_entries (dry_run : bool) (m : fs) : fs :=
  let existing_content :=
    if FS.exists_ m gitignore
    then default EmptyString (FS.read_text m gitignore)
    else EmptyString in
  let new_entries :=
    List.filter (fun entry => negb (Py.contains_str entry existing_content))
      entries_to_add in
  match new_entries with
  | [] => m
  | _ =>
      if negb dry_run
      then FS.append_text gitignore (LF +:+ Py.join LF new_entries +:+ LF) m
      else m
  end.

End ConfigSyncer.

(** A store with only regular files, for concrete runs. *)
Definition plain (l : list (list string * string)) : fs :=
  mkFs ∅ (list_to_map l) ∅.

(** ** Predicates used in the statements on the tagged format *)

(** A line that can stand in the fenced region: not empty, without
    surrounding white space, without a line feed and without a fence. *)
Definition line_ok (l : string) : Prop :=
  l <> EmptyString
  /\ Py.lstrip_by Py.isspace l = l /\ Py.rstrip_by Py.isspace l = l
  /\ Py.contains "010" l = false
  /\ (forall j : nat, Py.startswith (Py.drop j l) "---" = false).

(** A metadata text that the parser gives back as it is: on one line,
    without a fence, without a quote at either end, and not one of the
    two boolean words. *)
Definition plain_value (v : string) : Prop :=
  Py.contains "010" v = false
  /\ Py.contains_str "---" v = false
  /\ Py.strip_chars DQ v = v /\ Py.strip_chars SQ v = v
  /\ Py.lower v <> "true" /\ Py.lower v <> "false".


(** ** The specification's reading of the metadata parser

    The specification describes the same loop body with keys and values
    "trimmed of surrounding whitespace and one layer of matching quote
    characters". [SpecWording.parse_line] follows those words; it is
    compared with [parse_line] below and used nowhere else. *)

Module SpecWording.

Definition is_quote (c : ascii) : bool := Ascii.eqb c "034" || Ascii.eqb c "'".

(** The string without its last character, and that character. *)
Fixpoint split_last (s : string) : option (string * ascii) :=
  match s with
  | EmptyString => None
  | String c r =>
      match split_last r with
      | None => Some (EmptyString, c)
      | Some (init, l) => Some (String c init, l)
      end
  end.

(** Remove one layer of matching quotes, if there is one. *)
Definition unquote_once (s : string) : string :=
  match s with
  | String q r =>
      match split_last r with
      | Some (inner, l) => if is_quote q && Ascii.eqb q l then inner else s
      | None => s
      end
  | EmptyString => s
  end.

Definition parse_line (metadata : gmap string value) (line : string)
  : gmap string value :=
  if Py.contains ":" line then
    match Py.split1 ":" line with
    | [key; value] =>
        let key := unquote_once (Py.strip key) in
        let value := unquote_once (Py.strip value) in
        let value :=
          if String.eqb (Py.lower value) "true" then VBool true
          else if String.eqb (Py.lower value) "false" then VBool false
          else VStr value in
        <[key := value]> metadata
    | _ => metadata
    end
  else metadata.

End SpecWording.

(** * Properties *)

(** ** Checks of the primitives against the library's results *)

Example md5_empty : MD5.hexdigest "" = "d41d8cd98f00b204e9800998ecf8427e".
Proof. vm_compute. reflexivity. Qed.

Example md5_abc : MD5.hexdigest "abc" = "900150983cd24fb0d6963f7d28e17f72".
Proof. vm_compute. reflexivity. Qed.

Example md5_two_blocks :
  MD5.hexdigest
    "xxxxxxxxxxxxxxxxxxxxxxxxxxxxxxxxxxxxxxxxxxxxxxxxxxxxxxxxxxxxxxxxxxxxxxxxxxxxxxxxxxxxxxxxxxxxxxxxxxxxxxxxxxxxxxxxxxxxxxxx"
  = "fb98667f98096de92620b64f46e1c5b5".
Proof. vm_compute. reflexivity. Qed.

Example md5_latin1 :
  MD5.hexdigest (String "233" (String "255" EmptyString))
  = "568c76f96afe38f816b04e27850ee78e".
Proof. vm_compute. reflexivity. Qed.

Example strftime_example :
  strftime (mkDatetime 2026 3 7 9 5 0) = "20260307_090500".
Proof. reflexivity. Qed.

Example mdc_example :
  mdc_to_markdown (markdown_to_mdc "body" "d" "*.ts" true)
  = ("body", {[ "description" := VStr "d"; "globs" := VStr "*.ts";
                "alwaysApply" := VBool true ]}).
Proof. vm_compute. reflexivity. Qed.

Example strip_example :
  Py.strip (" " +:+ String "009" " a b " +:+ LF +:+ String "031" "") = "a b".
Proof. reflexivity. Qed.

Example strip_chars_example :
  Py.strip_chars SQ (Py.strip_chars DQ (DQ +:+ "'x'" +:+ DQ)) = "x".
Proof. reflexivity. Qed.

Example lower_example :
  Py.lower ("TrUe" +:+ String "201" "") = "true" +:+ String "233" "".
Proof. reflexivity. Qed.

Example find_examples :
  Py.find "----" "---" 3 = -1 /\ Py.find "------" "---" 3 = 3
  /\ Py.find "abc---" "---" 3 = 3 /\ Py.find "abc" "" 3 = 3
  /\ Py.find "abc" "" 4 = -1.
Proof. repeat split; reflexivity. Qed.

Example split_examples :
  Py.split "010" ("a" +:+ LF) = ["a"; ""] /\ Py.split "010" "" = [""]
  /\ Py.split1 ":" "a:b:c" = ["a"; "b:c"] /\ Py.split1 ":" "abc" = ["abc"].
Proof. repeat split; reflexivity. Qed.

Example splitlines_examples :
  Py.splitlines_len ("a" +:+ String "013" LF +:+ "b") = 2%nat
  /\ Py.splitlines_len ("a" +:+ LF +:+ String "013" "b") = 3%nat
  /\ Py.splitlines_len LF = 1%nat /\ Py.splitlines_len "" = 0%nat
  /\ Py.splitlines_len ("a" +:+ String "011" "b" +:+ String "028" "c") = 3%nat.
Proof. repeat split; reflexivity. Qed.

Example universal_newlines_example :
  Py.universal_newlines
    ("a" +:+ String "013" LF +:+ "b" +:+ String "013" "c" +:+ LF +:+ String "013" "d")
  = "a" +:+ LF +:+ "b" +:+ LF +:+ "c" +:+ LF +:+ LF +:+ "d".
Proof. reflexivity. Qed.

Example join_example :
  Py.join LF ["a"; "b"; "c"] = "a" +:+ LF +:+ "b" +:+ LF +:+ "c"
  /\ Py.join LF ["a"] = "a" /\ Py.join LF [] = "".
Proof. repeat split; reflexivity. Qed.

Example contains_str_examples :
  Py.contains_str "bc" "abcd" = true /\ Py.contains_str "" "" = true
  /\ Py.contains_str "x" "abcd" = false /\ Py.contains_str "abcd" "abc" = false.
Proof. repeat split; reflexivity. Qed.

Example mcp_template_length : String.length MCPSyncer.template_text = 176%nat.
Proof. reflexivity. Qed.

(** ** Facts about the string primitives *)

Section strip_facts.
Variable p : ascii -> bool.

Lemma lstrip_by_head (s : string) :
  Py.lstrip_by p s = EmptyString
  \/ exists c r, Py.lstrip_by p s = String c r /\ p c = false.
Proof.
  induction s as [|c r IH]; simpl; [now left|].
  destruct (p c) eqn:E; [exact IH|]. right. now exists c, r.
Qed.

Lemma rstrip_by_cons_keep (c : ascii) (r : string) :
  p c = false -> Py.rstrip_by p (String c r) = String c (Py.rstrip_by p r).
Proof. intros E. simpl. rewrite E. now destruct (Py.rstrip_by p r). Qed.

Lemma rstrip_by_idem (s : string) :
  Py.rstrip_by p (Py.rstrip_by p s) = Py.rstrip_by p s.
Proof.
  induction s as [|c r IH]; simpl; [reflexivity|].
  destruct (Py.rstrip_by p r) as [|d x] eqn:E.
  - destruct (p c) eqn:Ec; simpl; [reflexivity|]. now rewrite Ec.
  - change (Py.rstrip_by p (String c (String d x)))
      with (match Py.rstrip_by p (String d x) with
            | EmptyString => if p c then EmptyString else String c EmptyString
            | r' => String c r'
            end).
    now rewrite IH.
Qed.

Lemma strip_by_idem (s : string) :
  Py.strip_by p (Py.strip_by p s) = Py.strip_by p s.
Proof.
  unfold Py.strip_by.
  destruct (lstrip_by_head s) as [E | (c & r & E & Ec)]; rewrite E.
  - reflexivity.
  - rewrite (rstrip_by_cons_keep c r Ec). simpl Py.lstrip_by. rewrite Ec.
    rewrite <- (rstrip_by_cons_keep c r Ec). apply rstrip_by_idem.
Qed.
(** What [strip_by] removes: a run of characters of the set at each end,
    and nothing else; what is left neither begins nor ends with a
    character of the set. *)
Lemma lstrip_by_decompose (s : string) :
  exists l, s = l +:+ Py.lstrip_by p s /\ Py.all_chars p l = true.
Proof.
  induction s as [|c r (l & E & Hl)]; simpl.
  - now exists EmptyString.
  - destruct (p c) eqn:Ec.
    + exists (String c l). split.
      * change (String c r = String c (l +:+ Py.lstrip_by p r)). now f_equal.
      * simpl. now rewrite Ec, Hl.
    + now exists EmptyString.
Qed.

Lemma rstrip_by_decompose (s : string) :
  exists r, s = Py.rstrip_by p s +:+ r /\ Py.all_chars p r = true.
Proof.
  induction s as [|c t (r & E & Hr)]; simpl.
  - now exists EmptyString.
  - destruct (Py.rstrip_by p t) as [|d x] eqn:Et.
    + change (t = r) in E. subst r. destruct (p c) eqn:Ec.
      * exists (String c t). split; [reflexivity|]. simpl. now rewrite Ec, Hr.
      * exists t. split; [reflexivity|exact Hr].
    + exists r. split; [|exact Hr].
      change (String c t = String c (String d x +:+ r)). now f_equal.
Qed.

Lemma rstrip_by_last (s u : string) (c : ascii) :
  Py.rstrip_by p s = u +:+ String c EmptyString -> p c = false.
Proof.
  revert u. induction s as [|a t IH]; intros u H; simpl in H.
  - destruct u; discriminate.
  - destruct (Py.rstrip_by p t) as [|d x] eqn:Et.
    + destruct (p a) eqn:Ea; [destruct u; discriminate|].
      destruct u as [|b u].
      * change (String a "" = String c "") in H. now injection H as <-.
      * change (String a "" = String b (u +:+ String c "")) in H.
        injection H as _ H. destruct u; discriminate.
    + destruct u as [|b u]; [discriminate|].
      change (String a (String d x) = String b (u +:+ String c "")) in H.
      injection H as _ H. exact (IH u H).
Qed.

Lemma strip_by_decompose (s : string) :
  exists l r,
    s = l +:+ Py.strip_by p s +:+ r
    /\ Py.all_chars p l = true /\ Py.all_chars p r = true.
Proof.
  destruct (lstrip_by_decompose s) as (l & El & Hl).
  destruct (rstrip_by_decompose (Py.lstrip_by p s)) as (r & Er & Hr).
  exists l, r. unfold Py.strip_by. now rewrite <- Er.
Qed.

Lemma strip_by_ends (s : string) :
  (forall c r, Py.strip_by p s = String c r -> p c = false)
  /\ (forall u c, Py.strip_by p s = u +:+ String c EmptyString -> p c = false).
Proof.
  split; [|intros u c; apply rstrip_by_last].
  intros c r H. unfold Py.strip_by in H.
  destruct (lstrip_by_head s) as [E | (c' & r' & E & Ec)]; rewrite E in H.
  - discriminate.
  - rewrite (rstrip_by_cons_keep c' r' Ec) in H. now injection H as <- _.
Qed.

End strip_facts.

Lemma strip_idem (s : string) : Py.strip (Py.strip s) = Py.strip s.
Proof. apply strip_by_idem. Qed.

(** [find] returns [-1] exactly when [sub] occurs at no index from
    [start] on. *)
Lemma find_none (s sub : string) :
  forall start : nat,
    (forall i : nat, (start <= i)%nat -> Py.startswith (Py.drop i s) sub = false) ->
    Py.find s sub start = -1.
Proof.
  induction s as [|c r IH]; intros start H.
  - destruct start; [|reflexivity].
    pose proof (H 0%nat (Nat.le_refl _)) as E. cbn [Py.drop] in E.
    cbn [Py.find]. now rewrite E.
  - destruct start as [|k].
    + pose proof (H 0%nat (Nat.le_refl _)) as E. cbn [Py.drop] in E.
      cbn [Py.find]. rewrite E.
      rewrite (IH 0%nat); [reflexivity|].
      intros i _. apply (H (S i)). lia.
    + cbn [Py.find]. rewrite (IH k); [reflexivity|].
      intros i Hi. apply (H (S i)). lia.
Qed.


(** When [find] answers an index, [sub] occurs there, the index is at
    least [start], and [sub] occurs at no index in between. *)
Lemma find_first (sub : string) (s : string) :
  forall (start : nat) (z : Z),
    Py.find s sub start = z -> z <> -1 ->
    exists i : nat,
      z = Z.of_nat i /\ (start <= i)%nat
      /\ Py.startswith (Py.drop i s) sub = true
      /\ (forall j : nat, (start <= j < i)%nat ->
            Py.startswith (Py.drop j s) sub = false).
Proof.
  assert (Hshift : forall r, Py.shift r <> -1 -> r <> -1 /\ (0 <= r -> Py.shift r = r + 1)).
  { intros r. unfold Py.shift. destruct (Z.ltb_spec r 0); [congruence|].
    intros _. split; [lia|reflexivity]. }
  induction s as [|c r IH]; intros start z Hz Hne.
  - destruct start; cbn [Py.find] in Hz; [|congruence].
    destruct (Py.startswith EmptyString sub) eqn:E; [|congruence].
    exists 0%nat. subst z. repeat split; [lia|exact E|]. intros j Hj. lia.
  - destruct start as [|k]; cbn [Py.find] in Hz.
    + destruct (Py.startswith (String c r) sub) eqn:E.
      * exists 0%nat. subst z. repeat split; [lia|exact E|]. intros j Hj. lia.
      * subst z. destruct (Hshift _ Hne) as [Hr Hs].
        destruct (IH 0%nat _ eq_refl Hr) as (i & Ei & _ & Hi & Hlt).
        exists (S i). rewrite Hs by lia. repeat split; [lia|lia|exact Hi|].
        intros [|j] Hj; [exact E|]. apply Hlt. lia.
    + subst z. destruct (Hshift _ Hne) as [Hr Hs].
      destruct (IH k _ eq_refl Hr) as (i & Ei & Hk & Hi & Hlt).
      exists (S i). rewrite Hs by lia. repeat split; [lia|lia|exact Hi|].
      intros [|j] Hj; [lia|]. apply Hlt. lia.
Qed.

(** Letter case and white space do not interact: white space is not
    cased, and no letter lowers to white space. *)
Lemma isspace_lower_char (c : ascii) :
  Py.isspace (Py.lower_char c) = Py.isspace c.
Proof. destruct c as [[] [] [] [] [] [] [] []]; reflexivity. Qed.

Lemma lower_app (a b : string) : Py.lower (a +:+ b) = Py.lower a +:+ Py.lower b.
Proof.
  induction a as [|c a IH]; [reflexivity|].
  change (String (Py.lower_char c) (Py.lower (a +:+ b))
          = String (Py.lower_char c) (Py.lower a +:+ Py.lower b)).
  now rewrite IH.
Qed.

Lemma lstrip_lower (s : string) :
  Py.lstrip_by Py.isspace (Py.lower s) = Py.lower (Py.lstrip_by Py.isspace s).
Proof.
  induction s as [|c r IH]; [reflexivity|]. cbn [Py.lower Py.lstrip_by].
  rewrite isspace_lower_char. now destruct (Py.isspace c).
Qed.

Lemma rstrip_lower (s : string) :
  Py.rstrip_by Py.isspace (Py.lower s) = Py.lower (Py.rstrip_by Py.isspace s).
Proof.
  induction s as [|c r IH]; [reflexivity|]. cbn [Py.lower Py.rstrip_by].
  rewrite IH, isspace_lower_char.
  destruct (Py.rstrip_by Py.isspace r); [now destruct (Py.isspace c)|reflexivity].
Qed.

Lemma strip_lower (s : string) : Py.strip (Py.lower s) = Py.lower (Py.strip s).
Proof. unfold Py.strip, Py.strip_by. now rewrite lstrip_lower, rstrip_lower. Qed.

Lemma lstrip_by_all (p : ascii -> bool) (w s : string) :
  Py.all_chars p w = true -> Py.lstrip_by p (w +:+ s) = Py.lstrip_by p s.
Proof.
  induction w as [|c w IH]; [reflexivity|]. cbn [Py.all_chars].
  intros [Hc Hw]%andb_true_iff.
  change (Py.lstrip_by p (String c (w +:+ s)) = Py.lstrip_by p s).
  cbn [Py.lstrip_by]. rewrite Hc. exact (IH Hw).
Qed.

Lemma startswith_app (pre t : string) : Py.startswith (pre +:+ t) pre = true.
Proof.
  induction pre as [|c pre IH]; [now destruct t|].
  change (Py.startswith (String c (pre +:+ t)) (String c pre) = true).
  cbn [Py.startswith]. now rewrite Ascii.eqb_refl, IH.
Qed.

(** Trimming the right end keeps a prefix that does not itself end in a
    character of the set. *)
Lemma rstrip_by_keeps_prefix (p : ascii -> bool) (s : string) :
  forall pre : string,
    Py.startswith s pre = true -> Py.rstrip_by p pre = pre ->
    Py.startswith (Py.rstrip_by p s) pre = true.
Proof.
  induction s as [|a t IH]; intros [|b pre'] Hs Hr.
  - reflexivity.
  - discriminate.
  - now destruct (Py.rstrip_by p (String a t)).
  - cbn [Py.startswith] in Hs. apply andb_true_iff in Hs as [Hab Hs].
    apply Ascii.eqb_eq in Hab. subst b.
    assert (Hr' : Py.rstrip_by p pre' = pre'
                  /\ (pre' = EmptyString -> p a = false)).
    { cbn [Py.rstrip_by] in Hr. destruct (Py.rstrip_by p pre') as [|d x] eqn:E.
      - destruct (p a); [discriminate|]. injection Hr as <-. now split.
      - injection Hr as <-. split; [reflexivity|discriminate]. }
    destruct Hr' as [Hr' Hlast]. specialize (IH pre' Hs Hr').
    cbn [Py.rstrip_by]. destruct (Py.rstrip_by p t) as [|d x] eqn:E.
    + destruct pre' as [|? ?]; [|discriminate].
      rewrite (Hlast eq_refl). cbn [Py.startswith]. now rewrite Ascii.eqb_refl.
    + change (Ascii.eqb a a && Py.startswith (String d x) pre' = true).
      now rewrite Ascii.eqb_refl, IH.
Qed.

(** [find] answers [-1] or an index. *)
Lemma find_range (sub s : string) :
  forall start : nat, Py.find s sub start = -1 \/ 0 <= Py.find s sub start.
Proof.
  assert (Hshift : forall z, z = -1 \/ 0 <= z -> Py.shift z = -1 \/ 0 <= Py.shift z).
  { intros z [-> | Hz]; [now left|]. right. unfold Py.shift.
    destruct (Z.ltb_spec z 0); lia. }
  induction s as [|c r IH]; intros [|k]; cbn [Py.find].
  - destruct (Py.startswith EmptyString sub); [right; lia|now left].
  - now left.
  - destruct (Py.startswith (String c r) sub); [right; lia|apply Hshift, IH].
  - apply Hshift, IH.
Qed.

(** When [find] from the start answers [-1], [sub] occurs nowhere. *)
Lemma find_none_all (sub s : string) :
  Py.find s sub 0 = -1 ->
  forall i : nat, Py.startswith (Py.drop i s) sub = false.
Proof.
  induction s as [|c r IH]; cbn [Py.find]; intros H i.
  - destruct (Py.startswith EmptyString sub) eqn:E; [discriminate|].
    now destruct i.
  - destruct (Py.startswith (String c r) sub) eqn:E; [discriminate|].
    destruct i as [|i]; [exact E|]. cbn [Py.drop]. apply IH.
    unfold Py.shift in H.
    destruct (find_range sub r 0) as [E0 | E0]; [exact E0|].
    destruct (Z.ltb_spec (Py.find r sub 0) 0); lia.
Qed.

Lemma contains_str_intro (sub s : string) (i : nat) :
  Py.startswith (Py.drop i s) sub = true -> Py.contains_str sub s = true.
Proof.
  intros H. unfold Py.contains_str.
  destruct (Z.eqb_spec (Py.find s sub 0) (-1)) as [E|]; [|reflexivity].
  now rewrite (find_none_all sub s E i) in H.
Qed.

Lemma contains_str_elim (sub s : string) :
  Py.contains_str sub s = true ->
  exists i : nat, Py.startswith (Py.drop i s) sub = true.
Proof.
  unfold Py.contains_str. intros H.
  destruct (Z.eqb_spec (Py.find s sub 0) (-1)) as [|Hne]; [discriminate|].
  destruct (find_first sub s 0 _ eq_refl Hne) as (i & _ & _ & Hi & _). eauto.
Qed.

Lemma startswith_nil (s : string) : Py.startswith s EmptyString = true.
Proof. now destruct s. Qed.

Lemma startswith_app_l (s t sub : string) :
  Py.startswith s sub = true -> Py.startswith (s +:+ t) sub = true.
Proof.
  revert s. induction sub as [|b sub IH]; intros s H; [apply startswith_nil|].
  destruct s as [|a s]; [discriminate|].
  change (Py.startswith (String a (s +:+ t)) (String b sub) = true).
  cbn [Py.startswith] in *. apply andb_true_iff in H as [-> H]. now rewrite IH.
Qed.

Lemma drop_app_length (a s : string) (i : nat) :
  Py.drop (String.length a + i) (a +:+ s) = Py.drop i s.
Proof. induction a as [|c a IH]; [reflexivity|exact IH]. Qed.

Lemma drop_app_le (a s : string) :
  forall i : nat, (i <= String.length a)%nat ->
    Py.drop i (a +:+ s) = Py.drop i a +:+ s.
Proof.
  induction a as [|c a IH]; intros [|i] Hi; try reflexivity.
  - simpl in Hi. lia.
  - cbn [String.length] in Hi. apply (IH i). lia.
Qed.

Lemma drop_past (a : string) :
  forall i : nat, (String.length a <= i)%nat -> Py.drop i a = EmptyString.
Proof.
  induction a as [|c a IH]; intros [|i] Hi; try reflexivity.
  - simpl in Hi. lia.
  - cbn [String.length] in Hi. apply (IH i). lia.
Qed.

(** Occurrence survives text added before or after. *)
Lemma contains_str_app_r (sub a s : string) :
  Py.contains_str sub s = true -> Py.contains_str sub (a +:+ s) = true.
Proof.
  intros (i & Hi)%contains_str_elim.
  apply (contains_str_intro sub _ (String.length a + i)).
  now rewrite drop_app_length.
Qed.

Lemma contains_str_app_l (sub a s : string) :
  Py.contains_str sub a = true -> Py.contains_str sub (a +:+ s) = true.
Proof.
  intros (i & Hi)%contains_str_elim.
  destruct (Nat.le_gt_cases i (String.length a)) as [Hle | Hgt].
  - apply (contains_str_intro sub _ i). rewrite drop_app_le by exact Hle.
    now apply startswith_app_l.
  - rewrite drop_past in Hi by lia.
    destruct sub; [|discriminate].
    apply (contains_str_intro _ _ 0). apply startswith_nil.
Qed.

Lemma universal_newlines_cr_lf (r : string) :
  Py.universal_newlines (String "013" (String "010" r))
  = String "010" (Py.universal_newlines r).
Proof. reflexivity. Qed.

Lemma universal_newlines_cr_other (d : ascii) (r : string) :
  Ascii.eqb d "010" = false ->
  Py.universal_newlines (String "013" (String d r))
  = String "010" (Py.universal_newlines (String d r)).
Proof. intros E. cbn [Py.universal_newlines Ascii.eqb Bool.eqb]. now rewrite E. Qed.

Lemma universal_newlines_other (c : ascii) (r : string) :
  Ascii.eqb c "013" = false ->
  Py.universal_newlines (String c r) = String c (Py.universal_newlines r).
Proof. intros E. cbn [Py.universal_newlines]. now rewrite E. Qed.

Lemma append_cons (c : ascii) (a b : string) :
  String c a +:+ b = String c (a +:+ b).
Proof. reflexivity. Qed.

(** Reading text that was appended: what was read before stays a prefix;
    only a line feed appended right after a carriage return melts into
    it. *)
Lemma universal_newlines_app_aux (n : nat) :
  forall a b : string,
    (String.length a <= n)%nat ->
    exists b' : string,
      Py.universal_newlines (a +:+ b) = Py.universal_newlines a +:+ b'
      /\ (b' = Py.universal_newlines b
          \/ exists b0, b = String "010" b0 /\ b' = Py.universal_newlines b0).
Proof.
  induction n as [|n IH]; intros a b Hn.
  - destruct a; [|simpl in Hn; lia]. exists (Py.universal_newlines b).
    split; [reflexivity|now left].
  - destruct a as [|c r]; [exists (Py.universal_newlines b); now split; [|left]|].
    cbn [String.length] in Hn. rewrite append_cons.
    destruct (Ascii.eqb c "013") eqn:Ec.
    + apply Ascii.eqb_eq in Ec. subst c. destruct r as [|d r'].
      * change (EmptyString +:+ b) with b. destruct b as [|d b0].
        { exists EmptyString. split; [reflexivity|now left]. }
        destruct (Ascii.eqb d "010") eqn:Ed.
        { apply Ascii.eqb_eq in Ed. subst d. exists (Py.universal_newlines b0).
          split; [reflexivity|]. right. now exists b0. }
        { exists (Py.universal_newlines (String d b0)). split; [|now left].
          now rewrite (universal_newlines_cr_other d b0 Ed). }
      * rewrite append_cons. cbn [String.length] in Hn.
        destruct (Ascii.eqb d "010") eqn:Ed.
        { apply Ascii.eqb_eq in Ed. subst d.
          destruct (IH r' b ltac:(lia)) as (b' & E & Hb'). exists b'.
          split; [|exact Hb'].
          now rewrite !universal_newlines_cr_lf, E. }
        { destruct (IH (String d r') b ltac:(cbn [String.length]; lia))
            as (b' & E & Hb'). exists b'.
          split; [|exact Hb'].
          rewrite !(universal_newlines_cr_other d _ Ed), <- append_cons, E.
          reflexivity. }
    + destruct (IH r b ltac:(lia)) as (b' & E & Hb'). exists b'.
      split; [|exact Hb'].
      now rewrite !(universal_newlines_other c _ Ec), E.
Qed.

Lemma universal_newlines_app (a b : string) :
  exists b' : string,
    Py.universal_newlines (a +:+ b) = Py.universal_newlines a +:+ b'
    /\ (b' = Py.universal_newlines b
        \/ exists b0, b = String "010" b0 /\ b' = Py.universal_newlines b0).
Proof. exact (universal_newlines_app_aux (String.length a) a b (Nat.le_refl _)). Qed.

(** ** The tagged rule format *)

(** Parsing what [markdown_to_mdc] wrote, for a description and glob
    without a fence: the body comes back trimmed, next to the metadata
    that was written. *)
Lemma mdc_to_markdown_of_mdc_d_ts (B : string) :
  mdc_to_markdown (markdown_to_mdc B "d" "*.ts" true)
  = (Py.strip B,
     {[ "description" := VStr "d"; "globs" := VStr "*.ts";
        "alwaysApply" := VBool true ]}).
Proof.
  vm_compute. reflexivity.
Qed.

(** C3: for every body text [B], parsing the tagged text written for [B]
    with description "d", globs "*.ts" and alwaysApply true gives a body
    whose trim is the trim of [B], and exactly the three metadata entries,
    [alwaysApply] being the boolean [true]. *)
Theorem mdc_round_trip (B : string) :
  let doc := mdc_to_markdown (markdown_to_mdc B "d" "*.ts" true) in
  Py.strip (fst doc) = Py.strip B
  /\ snd doc = {[ "description" := VStr "d"; "globs" := VStr "*.ts";
                  "alwaysApply" := VBool true ]}
  /\ snd doc !! "alwaysApply" = Some (VBool true)
  /\ snd doc !! "alwaysApply" <> Some (VStr "true").
Proof.
  cbv zeta. rewrite mdc_to_markdown_of_mdc_d_ts. cbn [fst snd].
  split; [apply strip_idem|]. split; [reflexivity|].
  split; [vm_compute; reflexivity | vm_compute; discriminate].
Qed.

(** C7: an input that does not begin with the opening fence, or that has
    no fence at any index from 3 on, comes back whole as the body, with
    empty metadata; [mdc_to_markdown] is a total function, so nothing is
    raised. *)
Theorem mdc_to_markdown_fallback (X : string) :
  Py.startswith X "---" = false
  \/ (forall i : nat, (3 <= i)%nat -> Py.startswith (Py.drop i X) "---" = false) ->
  mdc_to_markdown X = (X, ∅).
Proof.
  intros [H | H]; unfold mdc_to_markdown.
  - now rewrite H.
  - destruct (Py.startswith X "---"); [|reflexivity].
    cbn [negb]. now rewrite (find_none X "---" 3 H).
Qed.

Lemma mdc_to_markdown_fallback_witness :
  mdc_to_markdown "plain rule" = ("plain rule", ∅)
  /\ mdc_to_markdown ("---" +:+ LF +:+ "key: v") = ("---" +:+ LF +:+ "key: v", ∅)
  /\ mdc_to_markdown "----" = ("----", ∅).
Proof.
  split; [|split].
  - apply (mdc_to_markdown_fallback "plain rule"). left. reflexivity.
  - apply (mdc_to_markdown_fallback ("---" +:+ LF +:+ "key: v")). right.
    intros i Hi. do 11 (destruct i as [|i]; [try lia; reflexivity|]).
    reflexivity.
  - apply (mdc_to_markdown_fallback "----"). right.
    intros i Hi. do 5 (destruct i as [|i]; [try lia; reflexivity|]).
    reflexivity.
Defined.

(** ** The metadata lines *)

(** Splitting at the first separator. *)
Lemma split1_first (sep : ascii) (key rest : string) :
  Py.contains sep key = false ->
  Py.split1 sep (key +:+ String sep rest) = [key; rest]
  /\ Py.contains sep (key +:+ String sep rest) = true.
Proof.
  induction key as [|c k IH]; intros H; simpl in *.
  - now rewrite Ascii.eqb_refl.
  - destruct (Ascii.eqb c sep) eqn:E; [discriminate|].
    destruct (IH H) as [-> ->]. now split.
Qed.

(** The metadata of a fenced input is the loop body folded over the
    lines of the fenced region. *)
Lemma mdc_to_markdown_fenced (X : string) :
  Py.startswith X "---" = true ->
  Py.find X "---" 3 <> -1 ->
  snd (mdc_to_markdown X)
  = fold_left parse_line
      (Py.split "010" (Py.strip (Py.slice X 3 (Z.to_nat (Py.find X "---" 3))))) ∅.
Proof.
  intros Hs Hf. unfold mdc_to_markdown. rewrite Hs. cbn [negb].
  destruct (Z.eqb_spec (Py.find X "---" 3) (-1)); [contradiction|reflexivity].
Qed.




(** ** What every parse result satisfies *)

Lemma contains_app (c : ascii) (a b : string) :
  Py.contains c (a +:+ b) = Py.contains c a || Py.contains c b.
Proof.
  induction a as [|x a IH]; [reflexivity|].
  change (Py.contains c (String x (a +:+ b))
          = Py.contains c (String x a) || Py.contains c b).
  cbn [Py.contains]. now destruct (Ascii.eqb x c).
Qed.

Lemma contains_strip_by (p : ascii -> bool) (c : ascii) (s : string) :
  Py.contains c s = false -> Py.contains c (Py.strip_by p s) = false.
Proof.
  intros H. destruct (strip_by_decompose p s) as (l & r & E & _ & _).
  rewrite E, !contains_app in H.
  apply orb_false_iff in H as [_ H]. now apply orb_false_iff in H as [H _].
Qed.

(** The two parts of a split at the first separator. *)
Lemma split1_parts (sep : ascii) (s : string) :
  forall k v : string,
    Py.split1 sep s = [k; v] ->
    Py.contains sep k = false /\ s = k +:+ String sep v.
Proof.
  induction s as [|c r IH]; intros k v H; cbn [Py.split1] in H; [discriminate|].
  destruct (Ascii.eqb c sep) eqn:E.
  - injection H as <- <-. apply Ascii.eqb_eq in E. now subst c.
  - destruct (Py.split1 sep r) as [|h t] eqn:Er; [discriminate|].
    injection H as <- ->. destruct (IH h v eq_refl) as [Hk Hr].
    split; [cbn [Py.contains]; now rewrite E|].
    change (String c r = String c (h +:+ String sep v)). now f_equal.
Qed.

(** One line keeps an invariant of the entries. *)
Lemma parse_line_inv (P : string -> value -> Prop) (md : gmap string value)
    (line : string) :
  (forall key raw : string,
      Py.contains ":" key = false ->
      let v := Py.strip_chars SQ (Py.strip_chars DQ (Py.strip raw)) in
      P (Py.strip key)
        (if String.eqb (Py.lower v) "true" then VBool true
         else if String.eqb (Py.lower v) "false" then VBool false
         else VStr v)) ->
  map_Forall P md -> map_Forall P (parse_line md line).
Proof.
  intros HP Hmd. unfold parse_line.
  destruct (Py.contains ":" line); [|exact Hmd].
  destruct (Py.split1 ":" line) as [|key [|raw [|? ?]]] eqn:E; try exact Hmd.
  apply map_Forall_insert_2; [|exact Hmd].
  apply HP. exact (proj1 (split1_parts _ _ _ _ E)).
Qed.

Lemma fold_parse_line_inv (P : string -> value -> Prop) (lines : list string) :
  forall md : gmap string value,
    (forall key raw : string,
        Py.contains ":" key = false ->
        let v := Py.strip_chars SQ (Py.strip_chars DQ (Py.strip raw)) in
        P (Py.strip key)
          (if String.eqb (Py.lower v) "true" then VBool true
           else if String.eqb (Py.lower v) "false" then VBool false
           else VStr v)) ->
    map_Forall P md -> map_Forall P (fold_left parse_line lines md).
Proof.
  induction lines as [|l ls IH]; intros md HP Hmd; [exact Hmd|].
  cbn [fold_left]. apply IH; [exact HP|]. now apply parse_line_inv.
Qed.

(** X1: in the metadata of every input, a key holds no colon and no
    surrounding white space, a string value never reads [true] or
    [false] in any letter case (those became booleans) and neither
    begins nor ends with a single quote. *)
Theorem mdc_metadata_invariant (X : string) (k : string) (v : value) :
  snd (mdc_to_markdown X) !! k = Some v ->
  Py.contains ":" k = false
  /\ Py.strip k = k
  /\ match v with
     | VBool _ => True
     | VStr s =>
         Py.lower s <> "true" /\ Py.lower s <> "false"
         /\ Py.strip_chars SQ s = s
     end.
Proof.
  revert k v.
  change (map_Forall
            (fun k v =>
               Py.contains ":" k = false /\ Py.strip k = k
               /\ match v with
                  | VBool _ => True
                  | VStr s => Py.lower s <> "true" /\ Py.lower s <> "false"
                              /\ Py.strip_chars SQ s = s
                  end)
            (snd (mdc_to_markdown X))).
  unfold mdc_to_markdown.
  destruct (negb (Py.startswith X "---")); [apply map_Forall_empty|].
  destruct (Py.find X "---" 3 =? -1); [apply map_Forall_empty|].
  cbn [snd]. apply fold_parse_line_inv; [|apply map_Forall_empty].
  intros key raw Hk v. split; [now apply contains_strip_by|].
  split; [apply strip_idem|].
  destruct (String.eqb (Py.lower v) "true") eqn:Et; [exact I|].
  destruct (String.eqb (Py.lower v) "false") eqn:Ef; [exact I|].
  apply String.eqb_neq in Et, Ef. split; [exact Et|]. split; [exact Ef|].
  apply strip_by_idem.
Qed.

Lemma mdc_metadata_invariant_witness :
  Py.contains ":" "name" = false /\ Py.strip "name" = "name"
  /\ Py.lower "a:b" <> "true" /\ Py.lower "a:b" <> "false"
  /\ Py.strip_chars SQ "a:b" = "a:b".
Proof.
  exact (mdc_metadata_invariant
           ("---" +:+ LF +:+ " name : 'a:b' " +:+ LF +:+ "---" +:+ LF +:+ "body")
           "name" (VStr "a:b") eq_refl).
Defined.

(** The body of every parse is either the whole input, next to
    empty metadata, or a text without surrounding white space. *)
Lemma mdc_body_whole_or_trimmed (X : string) :
  mdc_to_markdown X = (X, ∅)
  \/ Py.strip (fst (mdc_to_markdown X)) = fst (mdc_to_markdown X).
Proof.
  unfold mdc_to_markdown.
  destruct (negb (Py.startswith X "---")); [now left|].
  destruct (Py.find X "---" 3 =? -1); [now left|].
  right. cbn [fst]. apply strip_idem.
Qed.

(** ** The round trip through the tagged format, in general *)

Lemma string_app_assoc (a b c : string) : (a +:+ b) +:+ c = a +:+ (b +:+ c).
Proof.
  induction a as [|x a IH]; [reflexivity|].
  change (String x ((a +:+ b) +:+ c) = String x (a +:+ (b +:+ c))).
  now rewrite IH.
Qed.

Lemma length_app (a b : string) :
  String.length (a +:+ b) = (String.length a + String.length b)%nat.
Proof.
  induction a as [|c a IH]; [reflexivity|].
  rewrite append_cons. cbn [String.length]. now rewrite IH.
Qed.

(** [nofence s]: the fence occurs nowhere in [s]. *)
Lemma nofence_of_contains (s : string) :
  Py.contains_str "---" s = false ->
  forall i : nat, Py.startswith (Py.drop i s) "---" = false.
Proof.
  intros H i. destruct (Py.startswith (Py.drop i s) "---") eqn:E; [|reflexivity].
  now rewrite (contains_str_intro _ _ _ E) in H.
Qed.

Lemma first_not_dash (b : string) :
  Py.startswith b "-" = false ->
  match b with
  | EmptyString => True
  | String c _ => Ascii.eqb c "-" = false
  end.
Proof.
  destruct b as [|c b]; [easy|]. cbn [Py.startswith].
  now rewrite startswith_nil, andb_true_r.
Qed.

(** No fence begins inside [a] when [a] holds none and what follows does
    not begin with a dash. *)
Lemma no_fence_before (a b : string) (i : nat) :
  (forall j : nat, Py.startswith (Py.drop j a) "---" = false) ->
  Py.startswith b "-" = false ->
  (i <= String.length a)%nat ->
  Py.startswith (Py.drop i (a +:+ b)) "---" = false.
Proof.
  intros Ha Hb%first_not_dash Hi. rewrite drop_app_le by exact Hi.
  specialize (Ha i). destruct (Py.drop i a) as [|x [|y [|z t]]].
  - change (EmptyString +:+ b) with b.
    destruct b as [|c b]; [reflexivity|]. cbn [Py.startswith]. now rewrite Hb.
  - rewrite append_cons. change (EmptyString +:+ b) with b.
    destruct b as [|c b]; cbn [Py.startswith];
      [now rewrite andb_false_r|].
    rewrite Hb. cbn [andb]. now rewrite andb_false_r.
  - rewrite !append_cons. change (EmptyString +:+ b) with b.
    destruct b as [|c b]; cbn [Py.startswith];
      [now rewrite !andb_false_r|].
    rewrite Hb. cbn [andb]. now rewrite !andb_false_r.
  - rewrite !append_cons. cbn [Py.startswith] in *.
    destruct (t +:+ b); destruct t; exact Ha.
Qed.

Lemma nofence_app_r (a b : string) :
  (forall j : nat, Py.startswith (Py.drop j a) "---" = false) ->
  (forall j : nat, Py.startswith (Py.drop j b) "---" = false) ->
  Py.startswith b "-" = false ->
  forall i : nat, Py.startswith (Py.drop i (a +:+ b)) "---" = false.
Proof.
  intros Ha Hb Hd i.
  destruct (Nat.le_gt_cases i (String.length a)) as [Hle | Hgt].
  - now apply no_fence_before.
  - replace i with (String.length a + (i - String.length a))%nat by lia.
    rewrite drop_app_length. apply Hb.
Qed.

Lemma nofence_cons (c : ascii) (s : string) :
  Ascii.eqb c "-" = false ->
  (forall j : nat, Py.startswith (Py.drop j s) "---" = false) ->
  forall i : nat, Py.startswith (Py.drop i (String c s)) "---" = false.
Proof.
  intros Hc Hs [|i]; [|apply Hs]. cbn [Py.drop Py.startswith]. now rewrite Hc.
Qed.

Lemma nofence_nodash_app (a s : string) :
  Py.contains "-" a = false ->
  (forall j : nat, Py.startswith (Py.drop j s) "---" = false) ->
  forall i : nat, Py.startswith (Py.drop i (a +:+ s)) "---" = false.
Proof.
  induction a as [|c a IH]; intros Ha Hs; [exact Hs|].
  cbn [Py.contains] in Ha. destruct (Ascii.eqb c "-") eqn:E; [discriminate|].
  rewrite append_cons. apply nofence_cons; [exact E|]. now apply IH.
Qed.

(** [find] answers the first index from [start] on at which [sub]
    occurs. *)
Lemma find_first_at (sub : string) (s : string) :
  forall start n : nat,
    (start <= n)%nat -> (n <= String.length s)%nat ->
    (forall i : nat, (start <= i < n)%nat ->
       Py.startswith (Py.drop i s) sub = false) ->
    Py.startswith (Py.drop n s) sub = true ->
    Py.find s sub start = Z.of_nat n.
Proof.
  induction s as [|c r IH]; intros start n Hsn Hn Hno Hocc.
  - cbn [String.length] in Hn. assert (n = 0%nat) by lia. subst n.
    assert (start = 0%nat) by lia. subst start.
    cbn [Py.find Py.drop] in *. now rewrite Hocc.
  - destruct start as [|k]; cbn [Py.find].
    + destruct n as [|n].
      * cbn [Py.drop] in Hocc. now rewrite Hocc.
      * pose proof (Hno 0%nat ltac:(lia)) as H0. cbn [Py.drop] in H0. rewrite H0.
        cbn [String.length] in Hn.
        rewrite (IH 0%nat n); [| lia | lia | | exact Hocc].
        { unfold Py.shift. destruct (Z.ltb_spec (Z.of_nat n) 0); lia. }
        intros i Hi. apply (Hno (S i)). lia.
    + destruct n as [|n]; [lia|]. cbn [String.length] in Hn.
      rewrite (IH k n); [| lia | lia | | exact Hocc].
      { unfold Py.shift. destruct (Z.ltb_spec (Z.of_nat n) 0); lia. }
      intros i Hi. apply (Hno (S i)). lia.
Qed.

Lemma take_app_length (a s : string) :
  Py.take (String.length a) (a +:+ s) = a.
Proof.
  induction a as [|c a IH]; [now destruct s|].
  rewrite append_cons. cbn [String.length Py.take]. now rewrite IH.
Qed.

(** Parsing a text of the shape [---] [V0] LF [---] LF LF [B], when [V0]
    holds no fence: the fenced region is [V0] and the body is [B],
    trimmed. *)
Lemma mdc_to_markdown_shape (V0 B : string) :
  (forall j : nat, Py.startswith (Py.drop j V0) "---" = false) ->
  mdc_to_markdown ("---" +:+ ((V0 +:+ LF) +:+ ("---" +:+ LF +:+ LF +:+ B)))
  = (Py.strip B, fold_left parse_line (Py.split "010" (Py.strip (V0 +:+ LF))) ∅).
Proof.
  intros Hno. set (V := V0 +:+ LF). set (F := "---" +:+ LF +:+ LF +:+ B).
  assert (Hfind : Py.find ("---" +:+ (V +:+ F)) "---" 3
                  = Z.of_nat (3 + String.length V)).
  { apply find_first_at.
    - lia.
    - change ("---" +:+ (V +:+ F)) with (String "-" (String "-" (String "-" (V +:+ F)))).
      cbn [String.length]. rewrite length_app. lia.
    - intros i Hi. destruct i as [|[|[|i]]]; try lia.
      change (Py.drop (S (S (S i))) ("---" +:+ (V +:+ F))) with (Py.drop i (V +:+ F)).
      unfold V. rewrite string_app_assoc.
      apply no_fence_before; [exact Hno|reflexivity|].
      unfold V in Hi. rewrite length_app in Hi. cbn [String.length LF] in Hi.
      lia.
    - change (Py.drop (3 + String.length V) ("---" +:+ (V +:+ F)))
        with (Py.drop (String.length V) (V +:+ F)).
      replace (String.length V) with (String.length V + 0)%nat at 1 by lia.
      rewrite drop_app_length. reflexivity. }
  unfold mdc_to_markdown.
  rewrite (startswith_app "---" (V +:+ F)). cbn [negb].
  rewrite Hfind.
  destruct (Z.eqb_spec (Z.of_nat (3 + String.length V)) (-1)) as [E|_]; [lia|].
  f_equal.
  - replace (Z.to_nat (Z.of_nat (3 + String.length V) + 3))
      with (3 + (String.length V + 3))%nat by lia.
    change (Py.drop (3 + (String.length V + 3)) ("---" +:+ (V +:+ F)))
      with (Py.drop (String.length V + 3) (V +:+ F)).
    rewrite drop_app_length. reflexivity.
  - unfold Py.slice. rewrite Nat2Z.id.
    replace (3 + String.length V - 3)%nat with (String.length V) by lia.
    change (Py.drop 3 ("---" +:+ (V +:+ F))) with (V +:+ F).
    now rewrite take_app_length.
Qed.

(** Trimming and text added at an end. *)
Lemma rstrip_by_app_keep (p : ascii -> bool) (a r : string) :
  Py.rstrip_by p r <> EmptyString ->
  Py.rstrip_by p (a +:+ r) = a +:+ Py.rstrip_by p r.
Proof.
  intros Hr. induction a as [|c a IH]; [reflexivity|].
  rewrite !append_cons. cbn [Py.rstrip_by]. rewrite IH.
  destruct (a +:+ Py.rstrip_by p r) as [|x y] eqn:E; [|reflexivity].
  destruct a; [|discriminate]. now destruct (Py.rstrip_by p r).
Qed.

Lemma rstrip_by_app_all (p : ascii -> bool) (a r : string) :
  Py.all_chars p r = true -> Py.rstrip_by p (a +:+ r) = Py.rstrip_by p a.
Proof.
  intros Hr.
  assert (E : Py.rstrip_by p r = EmptyString).
  { induction r as [|c r IH]; [reflexivity|]. cbn [Py.all_chars] in Hr.
    apply andb_true_iff in Hr as [Hc Hr]. cbn [Py.rstrip_by].
    now rewrite (IH Hr), Hc. }
  induction a as [|c a IH]; [exact E|].
  rewrite append_cons. cbn [Py.rstrip_by]. now rewrite IH.
Qed.

Lemma lstrip_by_app_keep (p : ascii -> bool) (s t : string) :
  s <> EmptyString -> Py.lstrip_by p s = s -> Py.lstrip_by p (s +:+ t) = s +:+ t.
Proof.
  destruct s as [|c s]; [easy|]. intros _ H. rewrite append_cons.
  cbn [Py.lstrip_by] in *. destruct (p c) eqn:E; [|reflexivity].
  exfalso. destruct (lstrip_by_decompose p s) as (l & El & _).
  apply (f_equal String.length) in H, El. rewrite length_app in El.
  cbn [String.length] in H. lia.
Qed.

(** A text that trimming leaves alone has nothing to trim at either
    end. *)
Lemma strip_by_fix (p : ascii -> bool) (s : string) :
  Py.strip_by p s = s -> Py.lstrip_by p s = s /\ Py.rstrip_by p s = s.
Proof.
  intros H. unfold Py.strip_by in H.
  destruct (lstrip_by_decompose p s) as (l & El & _).
  destruct (rstrip_by_decompose p (Py.lstrip_by p s)) as (r & Er & _).
  rewrite H in Er.
  assert (Hlen : String.length l = 0%nat /\ String.length r = 0%nat).
  { pose proof (f_equal String.length El) as L1.
    pose proof (f_equal String.length Er) as L2.
    rewrite length_app in L1, L2. lia. }
  destruct Hlen as [Hl Hr].
  destruct l; [|discriminate]. change (s = Py.lstrip_by p s) in El.
  split; [now symmetry|]. now rewrite <- El in H.
Qed.

(** Splitting what [join] put together. *)
Lemma split_nosep (sep : ascii) (a : string) :
  Py.contains sep a = false -> Py.split sep a = [a].
Proof.
  induction a as [|c a IH]; [reflexivity|]. cbn [Py.contains Py.split].
  destruct (Ascii.eqb c sep); [discriminate|]. intros H. now rewrite (IH H).
Qed.

Lemma split_app_sep (sep : ascii) (a r : string) :
  Py.contains sep a = false ->
  Py.split sep (a +:+ String sep r) = a :: Py.split sep r.
Proof.
  induction a as [|c a IH]; intros H.
  - change (EmptyString +:+ String sep r) with (String sep r).
    cbn [Py.split]. now rewrite Ascii.eqb_refl.
  - rewrite append_cons. cbn [Py.contains Py.split] in *.
    destruct (Ascii.eqb c sep); [discriminate|]. now rewrite (IH H).
Qed.

Lemma join_cons2 (sep l l' : string) (r : list string) :
  Py.join sep (l :: l' :: r) = l +:+ sep +:+ Py.join sep (l' :: r).
Proof. reflexivity. Qed.

Lemma split_join (lines : list string) :
  lines <> [] ->
  Forall (fun l => Py.contains "010" l = false) lines ->
  Py.split "010" (Py.join LF lines) = lines.
Proof.
  induction lines as [|l [|l' r] IH]; intros Hne Hall; [easy| |].
  - apply Forall_cons in Hall as [Hl _]. now apply split_nosep.
  - apply Forall_cons in Hall as [Hl Hall]. rewrite join_cons2.
    change (LF +:+ Py.join LF (l' :: r)) with (String "010" (Py.join LF (l' :: r))).
    rewrite (split_app_sep _ _ _ Hl). f_equal. now apply IH.
Qed.

Lemma nofence_join (lines : list string) :
  Forall (fun l => forall j : nat, Py.startswith (Py.drop j l) "---" = false)
    lines ->
  forall i : nat, Py.startswith (Py.drop i (Py.join LF lines)) "---" = false.
Proof.
  induction lines as [|l [|l' r] IH]; intros Hall.
  - intros i. now destruct i.
  - now apply Forall_cons in Hall as [Hl _].
  - apply Forall_cons in Hall as [Hl Hall]. rewrite join_cons2.
    apply nofence_app_r; [exact Hl| |reflexivity].
    change (LF +:+ Py.join LF (l' :: r)) with (String "010" (Py.join LF (l' :: r))).
    apply nofence_cons; [reflexivity|]. now apply IH.
Qed.

Lemma join_ends (lines : list string) :
  lines <> [] -> Forall line_ok lines ->
  Py.join LF lines <> EmptyString
  /\ Py.lstrip_by Py.isspace (Py.join LF lines) = Py.join LF lines
  /\ Py.rstrip_by Py.isspace (Py.join LF lines) = Py.join LF lines.
Proof.
  induction lines as [|l [|l' r] IH]; intros Hne Hall; [easy| |].
  - apply Forall_cons in Hall as [(H1 & H2 & H3 & _) _]. now repeat split.
  - apply Forall_cons in Hall as [(H1 & H2 & H3 & _) Hall].
    destruct (IH ltac:(discriminate) Hall) as (J1 & J2 & J3).
    rewrite join_cons2. split; [destruct l; [easy|discriminate]|]. split.
    + now apply lstrip_by_app_keep.
    + rewrite rstrip_by_app_keep; [f_equal|].
      * rewrite rstrip_by_app_keep; [now rewrite J3|now rewrite J3].
      * rewrite rstrip_by_app_keep; [|now rewrite J3].
        change (LF +:+ Py.rstrip_by Py.isspace (Py.join LF (l' :: r)))
          with (String "010" (Py.rstrip_by Py.isspace (Py.join LF (l' :: r)))).
        discriminate.
Qed.

(** A document written from metadata lines parses into the loop body
    folded over those lines, next to the trimmed body. *)
Lemma mdc_to_markdown_of_lines (lines : list string) (B : string) :
  lines <> [] -> Forall line_ok lines ->
  mdc_to_markdown
    ("---" +:+ (((LF +:+ Py.join LF lines) +:+ LF) +:+ ("---" +:+ LF +:+ LF +:+ B)))
  = (Py.strip B, fold_left parse_line lines ∅).
Proof.
  intros Hne Hall.
  destruct (join_ends lines Hne Hall) as (J1 & J2 & J3).
  rewrite mdc_to_markdown_shape.
  - f_equal. f_equal.
    assert (E : Py.strip ((LF +:+ Py.join LF lines) +:+ LF) = Py.join LF lines).
    { unfold Py.strip, Py.strip_by. rewrite string_app_assoc.
      rewrite (lstrip_by_all Py.isspace LF _ eq_refl).
      rewrite (lstrip_by_app_keep _ _ _ J1 J2).
      now rewrite (rstrip_by_app_all Py.isspace _ LF eq_refl). }
    rewrite E. apply split_join; [exact Hne|].
    eapply Forall_impl; [exact Hall|]. now intros l (_ & _ & _ & H & _).
  - change (LF +:+ Py.join LF lines) with (String "010" (Py.join LF lines)).
    apply nofence_cons; [reflexivity|]. apply nofence_join.
    eapply Forall_impl; [exact Hall|]. now intros l (_ & _ & _ & _ & H).
Qed.

(** The text [markdown_to_mdc] writes, as its metadata lines. *)
Lemma markdown_to_mdc_lines (B d g : string) (b : bool) :
  markdown_to_mdc B d g b
  = "---" +:+
    (((LF +:+
       Py.join LF
         ((if truthy d then ["description: " +:+ DQ +:+ d +:+ DQ] else [])
          ++ (if truthy g then ["globs: " +:+ g] else [])
          ++ ["alwaysApply: " +:+ Py.lower (str_bool b)])%list)
      +:+ LF)
     +:+ ("---" +:+ LF +:+ LF +:+ B)).
Proof.
  unfold markdown_to_mdc.
  destruct d as [|cd d]; destruct g as [|cg g]; cbn [truthy app Py.join];
    rewrite !string_app_assoc; reflexivity.
Qed.

Lemma line_ok_always (b : bool) :
  line_ok ("alwaysApply: " +:+ Py.lower (str_bool b)).
Proof.
  destruct b; (split; [discriminate|]); (split; [reflexivity|]);
    (split; [reflexivity|]); (split; [reflexivity|]);
    apply nofence_of_contains; reflexivity.
Qed.

Lemma line_ok_description (d : string) :
  plain_value d -> line_ok ("description: " +:+ DQ +:+ d +:+ DQ).
Proof.
  intros (Hlf & Hf & _). split; [discriminate|]. split; [reflexivity|]. split.
  - rewrite <- !string_app_assoc. now apply rstrip_by_app_keep.
  - split.
    + rewrite !contains_app, Hlf. reflexivity.
    + apply nofence_nodash_app; [reflexivity|].
      change (DQ +:+ d +:+ DQ) with (String "034" (d +:+ DQ)).
      apply nofence_cons; [reflexivity|].
      apply nofence_app_r; [now apply nofence_of_contains| |reflexivity].
      apply nofence_of_contains. reflexivity.
Qed.

Lemma line_ok_globs (g : string) :
  plain_value g -> Py.strip g = g -> g <> EmptyString ->
  line_ok ("globs: " +:+ g).
Proof.
  intros (Hlf & Hf & _) Hs Hne. destruct (strip_by_fix _ _ Hs) as [_ Hr].
  split; [discriminate|]. split; [reflexivity|]. split.
  - rewrite rstrip_by_app_keep; now rewrite Hr.
  - split.
    + now rewrite contains_app, Hlf.
    + apply nofence_nodash_app; [reflexivity|]. now apply nofence_of_contains.
Qed.

(** The value of a quoted description and of a bare glob. *)
Lemma value_quoted (d : string) :
  plain_value d -> d <> EmptyString ->
  Py.strip_chars SQ (Py.strip_chars DQ (Py.strip (" " +:+ DQ +:+ d +:+ DQ))) = d.
Proof.
  intros (_ & _ & Hdq & Hsq & _) Hne.
  destruct (strip_by_fix _ _ Hdq) as [Hl Hr].
  assert (E1 : Py.strip (" " +:+ DQ +:+ d +:+ DQ) = DQ +:+ d +:+ DQ).
  { unfold Py.strip, Py.strip_by.
    change (Py.lstrip_by Py.isspace (" " +:+ DQ +:+ d +:+ DQ))
      with (DQ +:+ d +:+ DQ).
    rewrite <- string_app_assoc. now apply rstrip_by_app_keep. }
  rewrite E1.
  assert (E2 : Py.strip_chars DQ (DQ +:+ d +:+ DQ) = d).
  { unfold Py.strip_chars, Py.strip_by.
    change (Py.lstrip_by (fun c => Py.contains c DQ) (DQ +:+ d +:+ DQ))
      with (Py.lstrip_by (fun c => Py.contains c DQ) (d +:+ DQ)).
    rewrite (lstrip_by_app_keep _ _ _ Hne Hl).
    now rewrite (rstrip_by_app_all (fun c => Py.contains c DQ) d DQ eq_refl). }
  rewrite E2. exact Hsq.
Qed.

Lemma parse_line_description (M : gmap string value) (d : string) :
  plain_value d -> d <> EmptyString ->
  parse_line M ("description: " +:+ DQ +:+ d +:+ DQ)
  = <["description" := VStr d]> M.
Proof.
  intros Hd Hne. pose proof (value_quoted d Hd Hne) as Hv.
  destruct Hd as (_ & _ & _ & _ & Ht & Hf).
  unfold parse_line.
  change ("description: " +:+ DQ +:+ d +:+ DQ)
    with ("description" +:+ String ":" (" " +:+ DQ +:+ d +:+ DQ)).
  destruct (split1_first ":" "description" (" " +:+ DQ +:+ d +:+ DQ) eq_refl)
    as [-> ->].
  rewrite Hv. apply String.eqb_neq in Ht, Hf. now rewrite Ht, Hf.
Qed.

Lemma parse_line_globs (M : gmap string value) (g : string) :
  plain_value g -> Py.strip g = g ->
  parse_line M ("globs: " +:+ g) = <["globs" := VStr g]> M.
Proof.
  intros (_ & _ & Hdq & Hsq & Ht & Hf) Hs. unfold parse_line.
  change ("globs: " +:+ g) with ("globs" +:+ String ":" (" " +:+ g)).
  destruct (split1_first ":" "globs" (" " +:+ g) eq_refl) as [-> ->].
  assert (E : Py.strip (" " +:+ g) = g).
  { unfold Py.strip, Py.strip_by in *.
    now rewrite (lstrip_by_all Py.isspace " " g eq_refl). }
  rewrite E, Hdq, Hsq. apply String.eqb_neq in Ht, Hf. now rewrite Ht, Hf.
Qed.

Lemma parse_line_always (M : gmap string value) (b : bool) :
  parse_line M ("alwaysApply: " +:+ Py.lower (str_bool b))
  = <["alwaysApply" := VBool b]> M.
Proof. now destruct b. Qed.

(** X2: the round trip in general. For every body, every plain
    description, every plain glob text without surrounding white space
    and either flag, parsing what [markdown_to_mdc] wrote gives the body
    trimmed and exactly the entries that were written: the description
    and the globs as strings when they are not empty, and [alwaysApply]
    as the boolean. *)
Theorem mdc_round_trip_general (B d g : string) (b : bool) :
  plain_value d -> plain_value g -> Py.strip g = g ->
  mdc_to_markdown (markdown_to_mdc B d g b)
  = (Py.strip B,
     let md1 := if truthy d then <["description" := VStr d]> ∅ else ∅ in
     let md2 := if truthy g then <["globs" := VStr g]> md1 else md1 in
     <["alwaysApply" := VBool b]> md2).
Proof.
  intros Hd Hg Hs. rewrite markdown_to_mdc_lines.
  rewrite mdc_to_markdown_of_lines.
  - f_equal. destruct d as [|cd d]; destruct g as [|cg g];
      cbn [truthy app fold_left];
      rewrite ?parse_line_description, ?parse_line_globs, ?parse_line_always
        by (assumption || discriminate);
      reflexivity.
  - destruct (truthy d), (truthy g); discriminate.
  - apply Forall_app. split; [|apply Forall_app; split].
    + destruct d as [|cd d]; cbn [truthy]; [constructor|].
      apply Forall_singleton. now apply line_ok_description.
    + destruct g as [|cg g]; cbn [truthy]; [constructor|].
      apply Forall_singleton. now apply line_ok_globs.
    + apply Forall_singleton, line_ok_always.
Qed.

Lemma mdc_round_trip_general_witness :
  mdc_to_markdown
    (markdown_to_mdc " body " "Use strict types: always" "*.ts,*.tsx" false)
  = ("body",
     <["alwaysApply" := VBool false]>
       (<["globs" := VStr "*.ts,*.tsx"]>
          (<["description" := VStr "Use strict types: always"]> ∅))).
Proof.
  apply (mdc_round_trip_general " body " "Use strict types: always"
           "*.ts,*.tsx" false).
  - repeat split; try reflexivity; discriminate.
  - repeat split; try reflexivity; discriminate.
  - reflexivity.
Defined.

(** ** Facts about the file store *)

Lemma exists_Some (m : fs) (p : list string) (c : string) :
  FS.read_bytes m p = Some c -> FS.exists_ m p = true.
Proof. intros H. unfold FS.exists_. rewrite H. reflexivity. Qed.

Lemma exists_None (m : fs) (p : list string) :
  FS.read_bytes m p = None -> FS.exists_ m p = false.
Proof. intros H. unfold FS.exists_. rewrite H. reflexivity. Qed.

Lemma exists_false_None (m : fs) (p : list string) :
  FS.exists_ m p = false -> FS.read_bytes m p = None.
Proof.
  unfold FS.exists_. destruct (FS.read_bytes m p); [discriminate|reflexivity].
Qed.

Lemma read_bytes_write (p q : list string) (s : string) (m : fs) :
  FS.read_bytes (FS.write_text p s m) q
  = if decide (FS.resolve m p = FS.resolve m q) then Some s
    else FS.read_bytes m q.
Proof.
  unfold FS.read_bytes, FS.write_text, FS.resolve; cbn [links files].
  apply lookup_insert.
Qed.

Lemma read_bytes_write_eq (p q : list string) (s : string) (m : fs) :
  FS.resolve m p = FS.resolve m q ->
  FS.read_bytes (FS.write_text p s m) q = Some s.
Proof. intros H. rewrite read_bytes_write. now destruct (decide _). Qed.

Lemma read_bytes_write_ne (p q : list string) (s : string) (m : fs) :
  FS.resolve m p <> FS.resolve m q ->
  FS.read_bytes (FS.write_text p s m) q = FS.read_bytes m q.
Proof. intros H. rewrite read_bytes_write. now destruct (decide _). Qed.

Lemma resolve_write (p q : list string) (s : string) (m : fs) :
  FS.resolve (FS.write_text p s m) q = FS.resolve m q.
Proof. reflexivity. Qed.

Lemma is_symlink_write (p q : list string) (s : string) (m : fs) :
  FS.is_symlink (FS.write_text p s m) q = FS.is_symlink m q.
Proof. reflexivity. Qed.

(** Two paths that read differently name different files. *)
Lemma resolve_ne_of_read (m : fs) (p q : list string) :
  FS.read_bytes m p <> FS.read_bytes m q -> FS.resolve m p <> FS.resolve m q.
Proof. intros H E. apply H. unfold FS.read_bytes. now rewrite E. Qed.

(** [copy2] succeeds between two different files and acts as a write of
    the source bytes. *)
Lemma copy2_ok (src dst : list string) (b : string) (m : fs) :
  FS.read_bytes m src = Some b ->
  FS.resolve m src <> FS.resolve m dst ->
  FS.copy2 src dst m = Some (FS.write_text dst b m).
Proof.
  intros Hb Hne. unfold FS.copy2. rewrite Hb.
  destruct (decide _); [contradiction|reflexivity].
Qed.

(** ** The instruction files *)

Import InstructionSyncer.

Lemma reference_is_reference :
  is_reference (Py.universal_newlines reference_content) = true.
Proof. vm_compute. reflexivity. Qed.

Lemma sync_both (d : bool) (m : fs) (a c : string) :
  FS.read_bytes m agents_md = Some a ->
  FS.read_bytes m claude_md = Some c ->
  sync d m = _reconcile_both m.
Proof.
  intros Ha Hc. unfold sync.
  rewrite (exists_Some _ _ _ Ha), (exists_Some _ _ _ Hc). reflexivity.
Qed.

Lemma reconcile_reference (m : fs) (c : string) :
  FS.read_bytes m claude_md = Some c ->
  is_reference (Py.universal_newlines c) = true ->
  _reconcile_both m = Some (InSync, m).
Proof.
  intros Hc Hr. unfold _reconcile_both, FS.read_text. rewrite Hc.
  cbn [fmap option_fmap option_map mbind option_bind]. now rewrite Hr.
Qed.

Lemma reconcile_same (m : fs) (a : string) :
  FS.read_bytes m agents_md = Some a ->
  FS.read_bytes m claude_md = Some a ->
  _reconcile_both m = Some (InSync, m).
Proof.
  intros Ha Hc. unfold _reconcile_both, FS.read_text, file_hash.
  rewrite (exists_Some _ _ _ Ha), (exists_Some _ _ _ Hc), Ha, Hc.
  cbn [fmap option_fmap option_map mbind option_bind negb].
  destruct (is_reference _); [reflexivity|].
  rewrite bool_decide_eq_true_2; reflexivity.
Qed.


(** With both files present a pass changes nothing and reports [InSync]
    or [Diverged]. *)
Lemma reconcile_total (m : fs) (a c : string) :
  FS.read_bytes m agents_md = Some a ->
  FS.read_bytes m claude_md = Some c ->
  _reconcile_both m = Some (InSync, m)
  \/ exists n k, _reconcile_both m = Some (Diverged n k, m).
Proof.
  intros Ha Hc. unfold _reconcile_both, FS.read_text, file_hash.
  rewrite (exists_Some _ _ _ Ha), (exists_Some _ _ _ Hc), Ha, Hc.
  cbn [fmap option_fmap option_map mbind option_bind negb].
  destruct (is_reference _); [now left|].
  destruct (bool_decide _); cbn [negb]; [now left|]. right. eauto.
Qed.

(** The reference stub is written unless [CLAUDE.md] is a link to the
    file [AGENTS.md] names. *)
Lemma create_reference_ne (m : fs) :
  FS.resolve m claude_md <> FS.resolve m agents_md ->
  _create_claude_reference false m = FS.write_text claude_md reference_content m.
Proof.
  intros H. unfold _create_claude_reference.
  rewrite (bool_decide_eq_false_2 _ H), andb_false_r. reflexivity.
Qed.

Lemma create_reference_dry (m : fs) : _create_claude_reference true m = m.
Proof. unfold _create_claude_reference. now destruct (_ && _). Qed.

(** After the bootstrap branch both files are present and consistent. *)
Lemma bootstrap_in_sync (m : fs) :
  let m2 := _create_claude_reference false (_create_template false m) in
  sync false m2 = Some (InSync, m2).
Proof.
  cbv zeta. unfold _create_template. cbn [negb].
  set (m1 := FS.write_text agents_md template m).
  assert (Ha1 : FS.read_bytes m1 agents_md = Some template)
    by (apply read_bytes_write_eq; reflexivity).
  unfold _create_claude_reference.
  destruct (FS.is_symlink m1 claude_md
            && bool_decide (FS.resolve m1 claude_md = FS.resolve m1 agents_md))
    eqn:Econd.
  - apply andb_true_iff in Econd as [_ E]. apply bool_decide_eq_true_1 in E.
    assert (Hc1 : FS.read_bytes m1 claude_md = Some template).
    { unfold FS.read_bytes in *. now rewrite E. }
    rewrite (sync_both _ _ _ _ Ha1 Hc1). now apply (reconcile_same _ template).
  - cbn [negb]. set (m2 := FS.write_text claude_md reference_content m1).
    assert (Hc2 : FS.read_bytes m2 claude_md = Some reference_content)
      by (apply read_bytes_write_eq; reflexivity).
    assert (Ha2 : exists a, FS.read_bytes m2 agents_md = Some a).
    { unfold m2. rewrite read_bytes_write. destruct (decide _); eauto. }
    destruct Ha2 as [a Ha2].
    rewrite (sync_both _ _ _ _ Ha2 Hc2).
    apply (reconcile_reference _ _ Hc2), reference_is_reference.
Qed.

(** C2: for every store, the dry run reports the outcome of the live run
    and leaves the store as it was. *)
Theorem sync_dry_run_pure (m : fs) :
  exists (o : outcome) (m' : fs),
    sync false m = Some (o, m') /\ sync true m = Some (o, m).
Proof.
  destruct (FS.read_bytes m agents_md) as [a|] eqn:Ha;
    destruct (FS.read_bytes m claude_md) as [c|] eqn:Hc.
  - rewrite !(sync_both _ _ _ _ Ha Hc).
    destruct (reconcile_total _ _ _ Ha Hc) as [E | (n & k & E)];
      rewrite E; eauto.
  - unfold sync. rewrite (exists_Some _ _ _ Ha), (exists_None _ _ Hc).
    cbn [negb andb]. rewrite create_reference_dry. eauto.
  - unfold sync. rewrite (exists_None _ _ Ha), (exists_Some _ _ _ Hc).
    cbn [negb andb].
    rewrite (copy2_ok _ _ _ _ Hc); [|apply resolve_ne_of_read; congruence].
    cbn [mbind option_bind]. rewrite create_reference_dry. eauto.
  - unfold sync. rewrite (exists_None _ _ Ha), (exists_None _ _ Hc).
    cbn [negb andb]. change (_create_template true m) with m.
    rewrite create_reference_dry. eauto.
Qed.

(** C1, as the code has it: a second live pass never changes the store;
    it reports [InSync], except after a pass that reported [Diverged],
    which it reports again with the same line counts. *)
Theorem sync_twice (m : fs) :
  exists (o1 : outcome) (m1 : fs),
    sync false m = Some (o1, m1)
    /\ sync false m1
       = Some (match o1 with Diverged n k => Diverged n k | _ => InSync end, m1).
Proof.
  destruct (FS.read_bytes m agents_md) as [a|] eqn:Ha;
    destruct (FS.read_bytes m claude_md) as [c|] eqn:Hc.
  - pose proof (sync_both false _ _ _ Ha Hc) as Hs.
    destruct (reconcile_total _ _ _ Ha Hc) as [E | (n & k & E)];
      rewrite E in Hs.
    + exists InSync, m. now split.
    + exists (Diverged n k), m. now split.
  - assert (Hne : FS.resolve m claude_md <> FS.resolve m agents_md)
      by (apply resolve_ne_of_read; congruence).
    unfold sync at 1. rewrite (exists_Some _ _ _ Ha), (exists_None _ _ Hc).
    cbn [negb andb]. rewrite (create_reference_ne _ Hne).
    set (m1 := FS.write_text claude_md reference_content m).
    exists ReferenceCreated, m1. split; [reflexivity|].
    assert (Hc1 : FS.read_bytes m1 claude_md = Some reference_content)
      by (apply read_bytes_write_eq; reflexivity).
    assert (Ha1 : FS.read_bytes m1 agents_md = Some a)
      by (unfold m1; now rewrite read_bytes_write_ne).
    rewrite (sync_both _ _ _ _ Ha1 Hc1).
    apply (reconcile_reference _ _ Hc1), reference_is_reference.
  - assert (Hne : FS.resolve m claude_md <> FS.resolve m agents_md)
      by (apply resolve_ne_of_read; congruence).
    unfold sync at 1. rewrite (exists_None _ _ Ha), (exists_Some _ _ _ Hc).
    cbn [negb andb]. rewrite (copy2_ok _ _ _ _ Hc Hne).
    cbn [mbind option_bind].
    set (m1 := FS.write_text agents_md c m).
    rewrite (create_reference_ne m1 Hne).
    set (m2 := FS.write_text claude_md reference_content m1).
    exists Migrated, m2. split; [reflexivity|].
    assert (Hc2 : FS.read_bytes m2 claude_md = Some reference_content)
      by (apply read_bytes_write_eq; reflexivity).
    assert (Ha2 : FS.read_bytes m2 agents_md = Some c).
    { unfold m2. rewrite read_bytes_write_ne by exact Hne.
      apply read_bytes_write_eq. reflexivity. }
    rewrite (sync_both _ _ _ _ Ha2 Hc2).
    apply (reconcile_reference _ _ Hc2), reference_is_reference.
  - unfold sync at 1. rewrite (exists_None _ _ Ha), (exists_None _ _ Hc).
    cbn [negb andb]. eexists Bootstrapped, _. split; [reflexivity|].
    apply bootstrap_in_sync.
Qed.

(** C1 as stated fails on two files that differ: nothing is written on
    divergence, so the second pass reports [Diverged] again. *)
Lemma sync_twice_diverged :
  let m := plain [(agents_md, "A" +:+ LF +:+ "B"); (claude_md, "C" +:+ LF +:+ "D")] in
  sync false m = Some (Diverged 2 2, m)
  /\ (forall o1 m1 o2 m2,
        sync false m = Some (o1, m1) -> sync false m1 = Some (o2, m2) ->
        o2 <> InSync).
Proof.
  cbv zeta.
  assert (E : sync false
                (plain [(agents_md, "A" +:+ LF +:+ "B");
                        (claude_md, "C" +:+ LF +:+ "D")])
              = Some (Diverged 2 2,
                      plain [(agents_md, "A" +:+ LF +:+ "B");
                             (claude_md, "C" +:+ LF +:+ "D")]))
    by (vm_compute; reflexivity).
  split; [exact E|].
  intros o1 m1 o2 m2 H1 H2. rewrite E in H1. injection H1 as <- <-.
  rewrite E in H2. injection H2 as <- _. discriminate.
Qed.



(** C6: when only [CLAUDE.md] is present, a live pass reports
    [Migrated]; it first copies the bytes of [CLAUDE.md] to [AGENTS.md]
    and then writes the reference stub over [CLAUDE.md], so [AGENTS.md]
    ends with exactly the bytes [CLAUDE.md] had, and every other file is
    as before. *)
Theorem sync_migrates_mirror (m : fs) (c : string) :
  FS.exists_ m agents_md = false ->
  FS.read_bytes m claude_md = Some c ->
  exists m1 m2 : fs,
    FS.copy2 claude_md agents_md m = Some m1
    /\ m2 = FS.write_text claude_md reference_content m1
    /\ sync false m = Some (Migrated, m2)
    /\ FS.read_bytes m1 agents_md = Some c
    /\ FS.read_bytes m2 agents_md = Some c
    /\ FS.read_bytes m2 claude_md = Some reference_content
    /\ (forall q : list string,
          FS.resolve m q <> FS.resolve m agents_md ->
          FS.resolve m q <> FS.resolve m claude_md ->
          FS.read_bytes m2 q = FS.read_bytes m q).
Proof.
  intros Ha%exists_false_None Hc.
  assert (Hne : FS.resolve m claude_md <> FS.resolve m agents_md)
    by (apply resolve_ne_of_read; congruence).
  exists (FS.write_text agents_md c m),
         (FS.write_text claude_md reference_content (FS.write_text agents_md c m)).
  split; [exact (copy2_ok _ _ _ _ Hc Hne)|]. split; [reflexivity|].
  split.
  { unfold sync. rewrite (exists_None _ _ Ha), (exists_Some _ _ _ Hc).
    cbn [negb andb]. rewrite (copy2_ok _ _ _ _ Hc Hne).
    cbn [mbind option_bind].
    now rewrite (create_reference_ne (FS.write_text agents_md c m) Hne). }
  split; [apply read_bytes_write_eq; reflexivity|].
  split.
  { rewrite read_bytes_write_ne by exact Hne.
    apply read_bytes_write_eq. reflexivity. }
  split; [apply read_bytes_write_eq; reflexivity|].
  intros q Hqa Hqc.
  rewrite read_bytes_write_ne by (rewrite !resolve_write; congruence).
  apply read_bytes_write_ne. congruence.
Qed.

Lemma sync_migrates_mirror_witness :
  let m := plain [(claude_md, "# Legacy instructions" +:+ LF)] in
  exists m2 : fs,
    sync false m = Some (Migrated, m2)
    /\ FS.read_bytes m2 agents_md = Some ("# Legacy instructions" +:+ LF)
    /\ FS.read_bytes m2 claude_md = Some reference_content.
Proof.
  cbv zeta.
  destruct (sync_migrates_mirror
              (plain [(claude_md, "# Legacy instructions" +:+ LF)])
              ("# Legacy instructions" +:+ LF))
    as (m1 & m2 & _ & _ & Hs & _ & Ha & Hc & _).
  - vm_compute. reflexivity.
  - vm_compute. reflexivity.
  - exists m2. split; [exact Hs|]. split; [exact Ha|exact Hc].
Defined.

(** ** More on the instruction files *)

(** The live pass, branch by branch. *)
Lemma sync_live_cases (m : fs) :
  match FS.read_bytes m agents_md, FS.read_bytes m claude_md with
  | Some _, Some _ =>
      sync false m = Some (InSync, m)
      \/ exists n k, sync false m = Some (Diverged n k, m)
  | Some _, None =>
      FS.resolve m claude_md <> FS.resolve m agents_md
      /\ sync false m
         = Some (ReferenceCreated, FS.write_text claude_md reference_content m)
  | None, Some c =>
      FS.resolve m claude_md <> FS.resolve m agents_md
      /\ sync false m
         = Some (Migrated,
                 FS.write_text claude_md reference_content
                   (FS.write_text agents_md c m))
  | None, None =>
      sync false m
      = Some (Bootstrapped,
              _create_claude_reference false (FS.write_text agents_md template m))
  end.
Proof.
  destruct (FS.read_bytes m agents_md) as [a|] eqn:Ha;
    destruct (FS.read_bytes m claude_md) as [c|] eqn:Hc.
  - rewrite (sync_both _ _ _ _ Ha Hc). exact (reconcile_total _ _ _ Ha Hc).
  - assert (Hne : FS.resolve m claude_md <> FS.resolve m agents_md)
      by (apply resolve_ne_of_read; congruence).
    split; [exact Hne|]. unfold sync.
    rewrite (exists_Some _ _ _ Ha), (exists_None _ _ Hc). cbn [negb andb].
    now rewrite (create_reference_ne _ Hne).
  - assert (Hne : FS.resolve m claude_md <> FS.resolve m agents_md)
      by (apply resolve_ne_of_read; congruence).
    split; [exact Hne|]. unfold sync.
    rewrite (exists_None _ _ Ha), (exists_Some _ _ _ Hc). cbn [negb andb].
    rewrite (copy2_ok _ _ _ _ Hc Hne). cbn [mbind option_bind].
    now rewrite (create_reference_ne (FS.write_text agents_md c m) Hne).
  - unfold sync. rewrite (exists_None _ _ Ha), (exists_None _ _ Hc). reflexivity.
Qed.

(** The dry pass reports the live outcome and returns the store. *)
Lemma sync_dry_of_live (m : fs) (o : outcome) (m' : fs) :
  sync false m = Some (o, m') -> sync true m = Some (o, m).
Proof.
  intros H. pose proof (sync_live_cases m) as Hcases.
  destruct (FS.read_bytes m agents_md) as [a|] eqn:Ha;
    destruct (FS.read_bytes m claude_md) as [c|] eqn:Hc.
  - rewrite (sync_both true _ _ _ Ha Hc).
    rewrite (sync_both false _ _ _ Ha Hc) in H, Hcases.
    destruct Hcases as [E | (n & k & E)]; rewrite E in H |- *;
      now injection H as <- _.
  - destruct Hcases as [_ E]. rewrite E in H. injection H as <- _.
    unfold sync. rewrite (exists_Some _ _ _ Ha), (exists_None _ _ Hc).
    cbn [negb andb]. now rewrite create_reference_dry.
  - destruct Hcases as [_ E]. rewrite E in H. injection H as <- _.
    unfold sync. rewrite (exists_None _ _ Ha), (exists_Some _ _ _ Hc).
    cbn [negb andb mbind option_bind]. now rewrite create_reference_dry.
  - rewrite Hcases in H. injection H as <- _.
    unfold sync. rewrite (exists_None _ _ Ha), (exists_None _ _ Hc).
    cbn [negb andb]. change (_create_template true m) with m.
    now rewrite create_reference_dry.
Qed.


(** X4: no pass, dry or live, changes an [AGENTS.md] that is already
    there. *)
Theorem sync_keeps_agents (d : bool) (m : fs) (a : string) :
  FS.read_bytes m agents_md = Some a ->
  exists (o : outcome) (m' : fs),
    sync d m = Some (o, m') /\ FS.read_bytes m' agents_md = Some a.
Proof.
  intros Ha.
  assert (L : exists o m', sync false m = Some (o, m')
                           /\ FS.read_bytes m' agents_md = Some a).
  { pose proof (sync_live_cases m) as Hcases. rewrite Ha in Hcases.
    destruct (FS.read_bytes m claude_md) as [c|] eqn:Hc.
    - destruct Hcases as [E | (n & k & E)]; rewrite E; eauto.
    - destruct Hcases as [Hne E]. rewrite E. eexists _, _. split; [reflexivity|].
      rewrite read_bytes_write_ne by exact Hne. exact Ha. }
  destruct d; [|exact L]. destruct L as (o & m' & E & _).
  exists o, m. split; [exact (sync_dry_of_live _ _ _ E)|exact Ha].
Qed.

Lemma sync_keeps_agents_witness :
  exists (o : outcome) (m' : fs),
    sync false (plain [(agents_md, "# Rules")]) = Some (o, m')
    /\ FS.read_bytes m' agents_md = Some "# Rules".
Proof.
  apply (sync_keeps_agents false (plain [(agents_md, "# Rules")]) "# Rules").
  vm_compute. reflexivity.
Defined.

(** X5: a live pass loses no instruction text: what [CLAUDE.md] held is
    afterwards still in [CLAUDE.md] or else in [AGENTS.md]. *)
Theorem sync_keeps_claude_text (m : fs) (c : string) :
  FS.read_bytes m claude_md = Some c ->
  exists (o : outcome) (m' : fs),
    sync false m = Some (o, m')
    /\ (FS.read_bytes m' claude_md = Some c \/ FS.read_bytes m' agents_md = Some c).
Proof.
  intros Hc. pose proof (sync_live_cases m) as Hcases. rewrite Hc in Hcases.
  destruct (FS.read_bytes m agents_md) as [a|] eqn:Ha.
  - destruct Hcases as [E | (n & k & E)]; rewrite E; eauto.
  - destruct Hcases as [Hne E]. rewrite E. eexists _, _. split; [reflexivity|].
    right. rewrite read_bytes_write_ne by exact Hne.
    apply read_bytes_write_eq. reflexivity.
Qed.

Lemma sync_keeps_claude_text_witness :
  exists (o : outcome) (m' : fs),
    sync false (plain [(claude_md, "# Mine")]) = Some (o, m')
    /\ (FS.read_bytes m' claude_md = Some "# Mine"
        \/ FS.read_bytes m' agents_md = Some "# Mine").
Proof.
  apply (sync_keeps_claude_text (plain [(claude_md, "# Mine")]) "# Mine").
  vm_compute. reflexivity.
Defined.

(** X6: a pass only ever writes the two instruction files: the links,
    the directories and every other file are as before. *)
Theorem sync_frame (d : bool) (m : fs) :
  exists (o : outcome) (m' : fs),
    sync d m = Some (o, m')
    /\ links m' = links m /\ dirs m' = dirs m
    /\ (forall q : list string,
          FS.resolve m q <> FS.resolve m agents_md ->
          FS.resolve m q <> FS.resolve m claude_md ->
          FS.read_bytes m' q = FS.read_bytes m q).
Proof.
  assert (L : exists o m', sync false m = Some (o, m')
            /\ links m' = links m /\ dirs m' = dirs m
            /\ (forall q : list string,
                  FS.resolve m q <> FS.resolve m agents_md ->
                  FS.resolve m q <> FS.resolve m claude_md ->
                  FS.read_bytes m' q = FS.read_bytes m q)).
  { pose proof (sync_live_cases m) as Hcases.
    destruct (FS.read_bytes m agents_md) as [a|] eqn:Ha;
      destruct (FS.read_bytes m claude_md) as [c|] eqn:Hc.
    - destruct Hcases as [E | (n & k & E)]; rewrite E; eexists _, _;
        repeat split; reflexivity.
    - destruct Hcases as [_ E]. rewrite E. eexists _, _.
      repeat split; try reflexivity.
      intros q _ Hq. apply read_bytes_write_ne. congruence.
    - destruct Hcases as [_ E]. rewrite E. eexists _, _.
      repeat split; try reflexivity.
      intros q Hqa Hqc.
      rewrite read_bytes_write_ne
        by (change (FS.resolve m claude_md <> FS.resolve m q); congruence).
      apply read_bytes_write_ne. congruence.
    - rewrite Hcases. eexists _, _. split; [reflexivity|].
      unfold _create_claude_reference.
      destruct (_ && _); cbn [negb]; repeat split; try reflexivity.
      + intros q Hqa _. apply read_bytes_write_ne. congruence.
      + intros q Hqa Hqc.
        rewrite read_bytes_write_ne
          by (change (FS.resolve m claude_md <> FS.resolve m q); congruence).
        apply read_bytes_write_ne. congruence. }
  destruct d; [|exact L]. destruct L as (o & m' & E & _).
  exists o, m. split; [exact (sync_dry_of_live _ _ _ E)|]. repeat split.
Qed.

(** X7: a pass returns [False] only for two present files with different
    digests of which [CLAUDE.md] is no reference stub, and then it has
    written nothing. *)
Theorem sync_false_only_diverged (d : bool) (m : fs) (o : outcome) (m' : fs) :
  sync d m = Some (o, m') ->
  returned o = false ->
  m' = m
  /\ exists a c : string,
       FS.read_bytes m agents_md = Some a
       /\ FS.read_bytes m claude_md = Some c
       /\ is_reference (Py.universal_newlines c) = false
       /\ MD5.hexdigest a <> MD5.hexdigest c.
Proof.
  intros Hs Hr.
  assert (Hlive : exists m0, sync false m = Some (o, m0) /\ (d = false -> m0 = m')).
  { destruct d; [|now exists m'].
    pose proof (sync_live_cases m) as Hc.
    destruct (FS.read_bytes m agents_md) eqn:Ha;
      destruct (FS.read_bytes m claude_md) eqn:Hcl;
      [destruct Hc as [E | (n & k & E)] | destruct Hc as [_ E]
       | destruct Hc as [_ E] | rename Hc into E];
      rewrite (sync_dry_of_live _ _ _ E) in Hs; injection Hs as <- <-;
      eexists; (split; [exact E|discriminate]). }
  destruct Hlive as (m0 & Hl & Hm0).
  pose proof (sync_live_cases m) as Hcases.
  destruct (FS.read_bytes m agents_md) as [a|] eqn:Ha;
    destruct (FS.read_bytes m claude_md) as [c|] eqn:Hc.
  - assert (m' = m).
    { destruct d.
      - pose proof (sync_dry_of_live _ _ _ Hl) as Hd. rewrite Hd in Hs.
        now injection Hs.
      - rewrite (sync_both _ _ _ _ Ha Hc) in Hs.
        destruct (reconcile_total _ _ _ Ha Hc) as [E | (n & k & E)];
          rewrite E in Hs; now injection Hs. }
    split; [assumption|]. exists a, c. split; [reflexivity|]. split; [reflexivity|].
    rewrite (sync_both _ _ _ _ Ha Hc) in Hl.
    destruct (is_reference (Py.universal_newlines c)) eqn:Eref.
    + rewrite (reconcile_reference _ _ Hc Eref) in Hl. injection Hl as <- _.
      discriminate.
    + split; [reflexivity|]. intros Eh.
      unfold _reconcile_both, FS.read_text, file_hash in Hl.
      rewrite (exists_Some _ _ _ Ha), (exists_Some _ _ _ Hc), Ha, Hc in Hl.
      cbn [fmap option_fmap option_map mbind option_bind negb] in Hl.
      rewrite Eref, Eh, bool_decide_eq_true_2 in Hl by reflexivity.
      cbn [negb] in Hl. injection Hl as <- _. discriminate.
  - destruct Hcases as [_ E]. rewrite E in Hl. injection Hl as <- _. discriminate.
  - destruct Hcases as [_ E]. rewrite E in Hl. injection Hl as <- _. discriminate.
  - rewrite Hcases in Hl. injection Hl as <- _. discriminate.
Qed.

Lemma sync_false_only_diverged_witness :
  let m := plain [(agents_md, "A" +:+ LF +:+ "B"); (claude_md, "C" +:+ LF +:+ "D")] in
  exists a c : string,
    FS.read_bytes m agents_md = Some a /\ FS.read_bytes m claude_md = Some c
    /\ MD5.hexdigest a <> MD5.hexdigest c.
Proof.
  cbv zeta.
  destruct (sync_false_only_diverged false
              (plain [(agents_md, "A" +:+ LF +:+ "B");
                      (claude_md, "C" +:+ LF +:+ "D")])
              (Diverged 2 2)
              (plain [(agents_md, "A" +:+ LF +:+ "B");
                      (claude_md, "C" +:+ LF +:+ "D")]))
    as (_ & a & c & Ha & Hc & _ & Hh).
  - vm_compute. reflexivity.
  - reflexivity.
  - exists a, c. split; [exact Ha|]. split; [exact Hc|exact Hh].
Defined.



(** The stub test looks at the beginning of the text only. *)
Lemma is_reference_prefix (ws pre rest : string) :
  Py.all_chars Py.isspace ws = true ->
  Py.lower pre = "see @agents.md" \/ Py.lower pre = "see agents.md" ->
  is_reference (ws +:+ pre +:+ rest) = true.
Proof.
  intros Hws Hpre. unfold is_reference.
  rewrite <- strip_lower. unfold Py.strip, Py.strip_by.
  assert (Hl : Py.lstrip_by Py.isspace (Py.lower (ws +:+ pre +:+ rest))
               = Py.lstrip_by Py.isspace (Py.lower pre +:+ Py.lower rest)).
  { rewrite lstrip_lower, (lstrip_by_all _ ws _ Hws), <- lstrip_lower.
    now rewrite lower_app. }
  rewrite Hl. apply orb_true_iff.
  destruct Hpre as [E | E]; rewrite E; [left | right].
  - change (Py.lstrip_by Py.isspace ("see @agents.md" +:+ Py.lower rest))
      with ("see @agents.md" +:+ Py.lower rest).
    apply rstrip_by_keeps_prefix; [apply startswith_app|reflexivity].
  - change (Py.lstrip_by Py.isspace ("see agents.md" +:+ Py.lower rest))
      with ("see agents.md" +:+ Py.lower rest).
    apply rstrip_by_keeps_prefix; [apply startswith_app|reflexivity].
Qed.

(** X9: a [CLAUDE.md] whose text begins, after any white space, with
    [see @agents.md] or [see agents.md] in any letter case counts as a
    reference whatever follows: the pass reports [InSync] and writes
    nothing, whatever [AGENTS.md] holds. *)
Theorem sync_reference_prefix (d : bool) (m : fs) (a ws pre rest : string) :
  FS.read_bytes m agents_md = Some a ->
  FS.read_text m claude_md = Some (ws +:+ pre +:+ rest) ->
  Py.all_chars Py.isspace ws = true ->
  Py.lower pre = "see @agents.md" \/ Py.lower pre = "see agents.md" ->
  sync d m = Some (InSync, m).
Proof.
  intros Ha Ht Hws Hpre. unfold FS.read_text in Ht.
  destruct (FS.read_bytes m claude_md) as [c|] eqn:Hc; [|discriminate].
  cbn [fmap option_fmap option_map] in Ht. injection Ht as Ht.
  rewrite (sync_both _ _ _ _ Ha Hc). apply (reconcile_reference _ c Hc).
  rewrite Ht. now apply is_reference_prefix.
Qed.

Lemma sync_reference_prefix_witness :
  let m := plain [(agents_md, "# Rules");
                  (claude_md, " SEE AGENTS.MD, then my own rules")] in
  sync false m = Some (InSync, m).
Proof.
  cbv zeta.
  apply (sync_reference_prefix false
           (plain [(agents_md, "# Rules");
                   (claude_md, " SEE AGENTS.MD, then my own rules")])
           "# Rules" " " "SEE AGENTS.MD" ", then my own rules").
  - vm_compute. reflexivity.
  - vm_compute. reflexivity.
  - reflexivity.
  - right. reflexivity.
Defined.

(** X10: which files were there decides the outcome: [Bootstrapped] when
    neither was, [Migrated] when only [CLAUDE.md] was, [ReferenceCreated]
    when only [AGENTS.md] was, and [InSync] or [Diverged] when both
    were. *)
Theorem sync_outcome_table (d : bool) (m : fs) :
  exists (o : outcome) (m' : fs),
    sync d m = Some (o, m')
    /\ match FS.exists_ m agents_md, FS.exists_ m claude_md with
       | false, false => o = Bootstrapped
       | false, true => o = Migrated
       | true, false => o = ReferenceCreated
       | true, true => o = InSync \/ exists n k, o = Diverged n k
       end.
Proof.
  assert (L : exists o m', sync false m = Some (o, m')
            /\ match FS.exists_ m agents_md, FS.exists_ m claude_md with
               | false, false => o = Bootstrapped
               | false, true => o = Migrated
               | true, false => o = ReferenceCreated
               | true, true => o = InSync \/ exists n k, o = Diverged n k
               end).
  { pose proof (sync_live_cases m) as Hcases.
    destruct (FS.read_bytes m agents_md) as [a|] eqn:Ha;
      destruct (FS.read_bytes m claude_md) as [c|] eqn:Hc;
      rewrite ?(exists_Some _ _ _ Ha), ?(exists_Some _ _ _ Hc),
        ?(exists_None _ _ Ha), ?(exists_None _ _ Hc).
    - destruct Hcases as [E | (n & k & E)]; rewrite E; eexists _, _;
        (split; [reflexivity|]); eauto.
    - destruct Hcases as [_ E]. rewrite E. eauto.
    - destruct Hcases as [_ E]. rewrite E. eauto.
    - rewrite Hcases. eauto. }
  destruct d; [|exact L]. destruct L as (o & m' & E & T).
  exists o, m. split; [exact (sync_dry_of_live _ _ _ E)|exact T].
Qed.

(** X11: with neither file there, and [CLAUDE.md] not naming the same file
    as [AGENTS.md], a live pass leaves the template in [AGENTS.md] and
    the reference stub in [CLAUDE.md]. *)
Theorem sync_bootstrap_contents (m : fs) :
  FS.exists_ m agents_md = false ->
  FS.exists_ m claude_md = false ->
  FS.resolve m claude_md <> FS.resolve m agents_md ->
  exists m' : fs,
    sync false m = Some (Bootstrapped, m')
    /\ FS.read_bytes m' agents_md = Some template
    /\ FS.read_bytes m' claude_md = Some reference_content.
Proof.
  intros Ha%exists_false_None Hc%exists_false_None Hne.
  pose proof (sync_live_cases m) as Hcases. rewrite Ha, Hc in Hcases.
  rewrite Hcases. eexists. split; [reflexivity|].
  rewrite (create_reference_ne (FS.write_text agents_md template m) Hne).
  split.
  - rewrite read_bytes_write_ne by exact Hne.
    apply read_bytes_write_eq. reflexivity.
  - apply read_bytes_write_eq. reflexivity.
Qed.

Lemma sync_bootstrap_contents_witness :
  exists m' : fs,
    sync false (plain []) = Some (Bootstrapped, m')
    /\ FS.read_bytes m' agents_md = Some template
    /\ FS.read_bytes m' claude_md = Some reference_content.
Proof.
  apply (sync_bootstrap_contents (plain [])).
  - vm_compute. reflexivity.
  - vm_compute. reflexivity.
  - vm_compute. discriminate.
Defined.

(** X12: with only [AGENTS.md] there, a live pass writes the reference
    stub to [CLAUDE.md] and nothing else. *)
Theorem sync_reference_created (m : fs) (a : string) :
  FS.read_bytes m agents_md = Some a ->
  FS.exists_ m claude_md = false ->
  sync false m
  = Some (ReferenceCreated, FS.write_text claude_md reference_content m)
  /\ FS.read_bytes (FS.write_text claude_md reference_content m) claude_md
     = Some reference_content
  /\ FS.read_bytes (FS.write_text claude_md reference_content m) agents_md
     = Some a.
Proof.
  intros Ha Hc%exists_false_None.
  pose proof (sync_live_cases m) as Hcases. rewrite Ha, Hc in Hcases.
  destruct Hcases as [Hne E]. split; [exact E|]. split.
  - apply read_bytes_write_eq. reflexivity.
  - rewrite read_bytes_write_ne by exact Hne. exact Ha.
Qed.

Lemma sync_reference_created_witness :
  let m := plain [(agents_md, "# Rules")] in
  sync false m
  = Some (ReferenceCreated, FS.write_text claude_md reference_content m).
Proof.
  cbv zeta.
  apply (sync_reference_created (plain [(agents_md, "# Rules")]) "# Rules").
  - vm_compute. reflexivity.
  - vm_compute. reflexivity.
Defined.

(** X13: when [CLAUDE.md] is a symbolic link to the file [AGENTS.md]
    names, no pass writes a stub through it: afterwards the two paths
    still read the same, and the outcome is [Bootstrapped] or [InSync]. *)
Theorem sync_symlink_kept (d : bool) (m : fs) :
  FS.is_symlink m claude_md = true ->
  FS.resolve m claude_md = FS.resolve m agents_md ->
  exists (o : outcome) (m' : fs),
    sync d m = Some (o, m')
    /\ (o = Bootstrapped \/ o = InSync)
    /\ FS.read_bytes m' claude_md = FS.read_bytes m' agents_md
    /\ (d = false -> FS.read_bytes m' agents_md
                     = Some (default template (FS.read_bytes m agents_md))).
Proof.
  intros Hl Hr.
  assert (Hsame : forall m0 : fs, links m0 = links m ->
            FS.read_bytes m0 claude_md = FS.read_bytes m0 agents_md).
  { intros m0 E. unfold FS.read_bytes, FS.resolve in *. rewrite E. now rewrite Hr. }
  assert (L : exists o m', sync false m = Some (o, m')
            /\ (o = Bootstrapped \/ o = InSync)
            /\ FS.read_bytes m' claude_md = FS.read_bytes m' agents_md
            /\ FS.read_bytes m' agents_md
               = Some (default template (FS.read_bytes m agents_md))).
  { pose proof (Hsame m eq_refl) as E0.
    destruct (FS.read_bytes m agents_md) as [a|] eqn:Ha.
    - exists InSync, m. rewrite (sync_both false m a a Ha E0).
      rewrite (reconcile_same m a Ha E0).
      repeat split; [now right|exact (Hsame m eq_refl)|exact Ha].
    - pose proof (sync_live_cases m) as Hcases. rewrite Ha, E0 in Hcases.
      rewrite Hcases. eexists _, _. split; [reflexivity|]. split; [now left|].
      unfold _create_claude_reference.
      change (FS.is_symlink (FS.write_text agents_md template m) claude_md)
        with (FS.is_symlink m claude_md).
      change (FS.resolve (FS.write_text agents_md template m) claude_md)
        with (FS.resolve m claude_md).
      change (FS.resolve (FS.write_text agents_md template m) agents_md)
        with (FS.resolve m agents_md).
      rewrite Hl, (bool_decide_eq_true_2 _ Hr). cbn [andb].
      split; [apply Hsame; reflexivity|].
      apply read_bytes_write_eq. reflexivity. }
  destruct d.
  - destruct L as (o & m' & E & Ho & _). exists o, m.
    split; [exact (sync_dry_of_live _ _ _ E)|]. split; [exact Ho|].
    split; [exact (Hsame m eq_refl)|discriminate].
  - destruct L as (o & m' & E & Ho & Hs & Ha). exists o, m'. auto.
Qed.

Lemma sync_symlink_kept_witness :
  let m := mkFs {[ claude_md := agents_md ]} ∅ ∅ in
  exists (o : outcome) (m' : fs),
    sync false m = Some (o, m')
    /\ FS.read_bytes m' claude_md = FS.read_bytes m' agents_md
    /\ FS.read_bytes m' agents_md = Some template.
Proof.
  cbv zeta.
  destruct (sync_symlink_kept false (mkFs {[ claude_md := agents_md ]} ∅ ∅))
    as (o & m' & Hs & _ & He & Ha).
  - vm_compute. reflexivity.
  - vm_compute. reflexivity.
  - exists o, m'. split; [exact Hs|]. split; [exact He|]. exact (Ha eq_refl).
Defined.

(** ** Backups *)

Lemma strftime_length (t : datetime) : String.length (strftime t) = 15%nat.
Proof. reflexivity. Qed.











Lemma read_bytes_ensure_dir (d q : list string) (m : fs) :
  FS.read_bytes (ensure_dir d m) q = FS.read_bytes m q.
Proof. reflexivity. Qed.

(** [backup_file] on a present file that is not its own backup. *)
Lemma backup_file_ok (now : datetime) (p dir : list string) (m : fs) (c : string) :
  FS.read_bytes m p = Some c ->
  FS.resolve m p <> FS.resolve m (backup_path_of now p dir) ->
  backup_file now p dir m
  = Some (Some (backup_path_of now p dir),
          FS.write_text (backup_path_of now p dir) c (ensure_dir dir m)).
Proof.
  intros Hc Hne. unfold backup_file. rewrite (exists_Some _ _ _ Hc). cbn [negb].
  fold (backup_path_of now p dir).
  rewrite (copy2_ok _ _ c); [reflexivity|exact Hc|exact Hne].
Qed.




(** ** The legacy rules migration *)

Import RulesSyncer.

(** Parsing the migrated file gives back the legacy text, trimmed, with
    the provenance marker and [alwaysApply]. *)
Lemma mdc_to_markdown_of_migrated (B : string) :
  mdc_to_markdown (mdc_of B)
  = (Py.strip B,
     {[ "description" := VStr provenance; "alwaysApply" := VBool true ]}).
Proof. vm_compute. reflexivity. Qed.

Lemma NoDup_three {A : Type} (a b c : A) :
  NoDup [a; b; c] -> a <> b /\ a <> c /\ b <> c.
Proof.
  intros H. apply NoDup_cons in H as [H1 H]. apply NoDup_cons in H as [H2 _].
  set_solver.
Qed.

(** A live migration, when the legacy file, the target and the backup are
    three different files: the target receives the tagged text, then the
    legacy bytes are copied to the backup. *)
Lemma migrate_live (now : datetime) (m : fs) (c : string) :
  FS.read_bytes m cursorrules_legacy = Some c ->
  NoDup [FS.resolve m cursorrules_legacy; FS.resolve m new_path;
         FS.resolve m (backup_path now)] ->
  _migrate_legacy_cursorrules false now m
  = Some (true,
          FS.write_text (backup_path now) c
            (ensure_dir backup_dir
               (FS.write_text new_path (mdc_of (Py.universal_newlines c))
                  (ensure_dir cursor_rules m)))).
Proof.
  intros Hc Hnd.
  apply NoDup_three in Hnd as (Hln & Hlb & Hnb).
  unfold _migrate_legacy_cursorrules, FS.read_text. rewrite Hc.
  cbn [fmap option_fmap option_map mbind option_bind negb].
  fold (mdc_of (Py.universal_newlines c)).
  set (m2 := FS.write_text new_path _ (ensure_dir cursor_rules m)).
  assert (Hc2 : FS.read_bytes m2 cursorrules_legacy = Some c).
  { unfold m2. rewrite read_bytes_write_ne; [exact Hc|].
    change (FS.resolve m new_path <> FS.resolve m cursorrules_legacy). congruence. }
  rewrite (backup_file_ok now _ _ _ c Hc2); [reflexivity|].
  change (FS.resolve m cursorrules_legacy <> FS.resolve m (backup_path now)).
  congruence.
Qed.

(** What the store holds after a live migration. *)
Lemma migrate_live_reads (now : datetime) (m : fs) (c : string) :
  FS.read_bytes m cursorrules_legacy = Some c ->
  NoDup [FS.resolve m cursorrules_legacy; FS.resolve m new_path;
         FS.resolve m (backup_path now)] ->
  let m' :=
    FS.write_text (backup_path now) c
      (ensure_dir backup_dir
         (FS.write_text new_path (mdc_of (Py.universal_newlines c))
            (ensure_dir cursor_rules m))) in
  FS.read_bytes m' new_path = Some (mdc_of (Py.universal_newlines c))
  /\ FS.read_bytes m' (backup_path now) = Some c
  /\ FS.read_bytes m' cursorrules_legacy = Some c.
Proof.
  intros Hc Hnd. cbv zeta.
  apply NoDup_three in Hnd as (Hln & Hlb & Hnb).
  set (mdc := mdc_of (Py.universal_newlines c)).
  set (m2 := FS.write_text new_path mdc (ensure_dir cursor_rules m)).
  split; [|split].
  - rewrite read_bytes_write_ne.
    + apply (read_bytes_write_eq new_path new_path). reflexivity.
    + change (FS.resolve m (backup_path now) <> FS.resolve m new_path).
      congruence.
  - apply read_bytes_write_eq. reflexivity.
  - rewrite read_bytes_write_ne.
    + unfold m2. rewrite read_bytes_ensure_dir, read_bytes_write_ne; [exact Hc|].
      change (FS.resolve m new_path <> FS.resolve m cursorrules_legacy).
      congruence.
    + change (FS.resolve m (backup_path now) <> FS.resolve m cursorrules_legacy).
      congruence.
Qed.




(** C10: a live migration writes the fixed path
    [.cursor/rules/project-rules.mdc]; whatever was there before, the
    file ends as the tagged legacy text, the result is the same for every
    previous content of the target, the backup holds the legacy bytes,
    and apart from the target and the backup no file changes. *)
Theorem migrate_overwrites_target (now : datetime) (m : fs) (c old : string) :
  FS.read_bytes m cursorrules_legacy = Some c ->
  FS.read_bytes m new_path = Some old ->
  NoDup [FS.resolve m cursorrules_legacy; FS.resolve m new_path;
         FS.resolve m (backup_path now)] ->
  new_path = [".cursor"; "rules"; "project-rules.mdc"]
  /\ exists m' : fs,
       _migrate_legacy_cursorrules false now m = Some (true, m')
       /\ FS.read_bytes m' new_path = Some (mdc_of (Py.universal_newlines c))
       /\ FS.read_bytes m' (backup_path now) = Some c
       /\ (forall old' : string,
             _migrate_legacy_cursorrules false now (FS.write_text new_path old' m)
             = Some (true, m'))
       /\ (forall q : list string,
             FS.resolve m q <> FS.resolve m new_path ->
             FS.resolve m q <> FS.resolve m (backup_path now) ->
             FS.read_bytes m' q = FS.read_bytes m q).
Proof.
  intros Hc Hold Hnd. split; [reflexivity|].
  destruct (migrate_live_reads now m c Hc Hnd) as (Hn & Hb & _).
  eexists. split; [exact (migrate_live now m c Hc Hnd)|].
  split; [exact Hn|]. split; [exact Hb|].
  pose proof Hnd as Hnd'.
  apply NoDup_three in Hnd' as (Hln & Hlb & Hnb).
  split.
  - intros old'.
    rewrite (migrate_live now (FS.write_text new_path old' m) c).
    + do 2 f_equal. unfold FS.write_text, ensure_dir, FS.resolve; cbn [links files dirs].
      now rewrite insert_insert_eq.
    + rewrite read_bytes_write_ne; [exact Hc|]. congruence.
    + exact Hnd.
  - intros q Hq1 Hq2.
    rewrite read_bytes_write_ne by
      (change (FS.resolve m (backup_path now) <> FS.resolve m q); congruence).
    rewrite read_bytes_ensure_dir, read_bytes_write_ne by
      (change (FS.resolve m new_path <> FS.resolve m q); congruence).
    reflexivity.
Qed.

Lemma migrate_overwrites_target_witness :
  let now := mkDatetime 2026 11 3 12 0 0 in
  let m := plain [(cursorrules_legacy, "rule text"); (new_path, "edited by hand")] in
  exists m' : fs,
    _migrate_legacy_cursorrules false now m = Some (true, m')
    /\ FS.read_bytes m' new_path = Some (mdc_of "rule text").
Proof.
  cbv zeta.
  destruct (migrate_overwrites_target (mkDatetime 2026 11 3 12 0 0)
              (plain [(cursorrules_legacy, "rule text");
                      (new_path, "edited by hand")])
              "rule text" "edited by hand")
    as (_ & m' & Hm & Hn & _).
  - vm_compute. reflexivity.
  - vm_compute. reflexivity.
  - refine (bool_decide_unpack _ _). vm_compute. exact I.
  - exists m'. split; [exact Hm|exact Hn].
Defined.

(** ** More on backups and the rules synchronisation *)

(** X14: a backup of a present file that is not its own backup changes
    one file only: the backup path receives the source bytes, and the
    source, every other file and the links are as before. *)
Theorem backup_file_frame (now : datetime) (p dir : list string) (m : fs)
    (c : string) :
  FS.read_bytes m p = Some c ->
  FS.resolve m p <> FS.resolve m (backup_path_of now p dir) ->
  exists m' : fs,
    backup_file now p dir m = Some (Some (backup_path_of now p dir), m')
    /\ FS.read_bytes m' (backup_path_of now p dir) = Some c
    /\ FS.read_bytes m' p = Some c
    /\ links m' = links m
    /\ (forall q : list string,
          FS.resolve m q <> FS.resolve m (backup_path_of now p dir) ->
          FS.read_bytes m' q = FS.read_bytes m q).
Proof.
  intros Hc Hne. eexists. split; [exact (backup_file_ok now p dir m c Hc Hne)|].
  split; [apply read_bytes_write_eq; reflexivity|].
  split.
  { rewrite read_bytes_write_ne; [exact Hc|].
    change (FS.resolve m (backup_path_of now p dir) <> FS.resolve m p). congruence. }
  split; [reflexivity|].
  intros q Hq. rewrite read_bytes_write_ne; [reflexivity|].
  change (FS.resolve m (backup_path_of now p dir) <> FS.resolve m q). congruence.
Qed.

Lemma backup_file_frame_witness :
  let now := mkDatetime 2026 11 3 12 0 0 in
  exists m' : fs,
    backup_file now [".cursorrules"] [".cursor"; "backups"]
      (plain [([".cursorrules"], "v1")])
    = Some (Some [".cursor"; "backups"; ".cursorrules.20261103_120000.bak"], m')
    /\ FS.read_bytes m' [".cursorrules"] = Some "v1".
Proof.
  cbv zeta.
  destruct (backup_file_frame (mkDatetime 2026 11 3 12 0 0) [".cursorrules"]
              [".cursor"; "backups"] (plain [([".cursorrules"], "v1")]) "v1")
    as (m' & Hb & _ & Hp & _).
  - vm_compute. reflexivity.
  - vm_compute. discriminate.
  - exists m'. split; [exact Hb|exact Hp].
Defined.

(** X15: the two ways [backup_file] makes no backup: for a missing file
    it returns [None] and leaves the store as it was; when the backup
    path names the source file itself the copy raises. *)
Theorem backup_file_edges (now : datetime) (p dir : list string) (m : fs) :
  (FS.exists_ m p = false -> backup_file now p dir m = Some (None, m))
  /\ (FS.exists_ m p = true ->
      FS.resolve m p = FS.resolve m (backup_path_of now p dir) ->
      backup_file now p dir m = None).
Proof.
  split.
  - intros H. unfold backup_file. now rewrite H.
  - intros H E. unfold backup_file. rewrite H. cbn [negb].
    fold (backup_path_of now p dir). unfold FS.copy2.
    change (FS.read_bytes (ensure_dir dir m) p) with (FS.read_bytes m p).
    change (FS.resolve (ensure_dir dir m) p) with (FS.resolve m p).
    change (FS.resolve (ensure_dir dir m) (backup_path_of now p dir))
      with (FS.resolve m (backup_path_of now p dir)).
    unfold FS.exists_ in H. destruct (FS.read_bytes m p); [|discriminate].
    now destruct (decide _).
Qed.

Lemma backup_file_edges_witness :
  let now := mkDatetime 2026 11 3 12 0 0 in
  let dir := [".cursor"; "backups"] in
  backup_file now [".cursorrules"] dir (plain []) = Some (None, plain [])
  /\ backup_file now [".cursorrules"] dir
       (mkFs {[ backup_path_of now [".cursorrules"] dir := [".cursorrules"] ]}
             {[ [".cursorrules"] := "v1" ]} ∅)
     = None.
Proof.
  cbv zeta. split.
  - apply (proj1 (backup_file_edges (mkDatetime 2026 11 3 12 0 0)
                    [".cursorrules"] [".cursor"; "backups"] (plain []))).
    vm_compute. reflexivity.
  - apply (proj2 (backup_file_edges (mkDatetime 2026 11 3 12 0 0)
                    [".cursorrules"] [".cursor"; "backups"] _)).
    + vm_compute. reflexivity.
    + vm_compute. reflexivity.
Defined.


(** X16: the migration relies on its caller for the existence test: on a
    missing legacy file it raises in both modes; on a present one the
    dry run returns [True] and leaves the store as it was. *)
Theorem migrate_dry_and_missing (d : bool) (now : datetime) (m : fs) :
  (FS.exists_ m cursorrules_legacy = false ->
   _migrate_legacy_cursorrules d now m = None)
  /\ (FS.exists_ m cursorrules_legacy = true ->
      _migrate_legacy_cursorrules true now m = Some (true, m)).
Proof.
  unfold _migrate_legacy_cursorrules, FS.read_text, FS.exists_. split; intros H.
  - destruct (FS.read_bytes m cursorrules_legacy); [discriminate|reflexivity].
  - destruct (FS.read_bytes m cursorrules_legacy); [reflexivity|discriminate].
Qed.

Lemma migrate_dry_and_missing_witness :
  let now := mkDatetime 2026 11 3 12 0 0 in
  _migrate_legacy_cursorrules false now (plain []) = None
  /\ _migrate_legacy_cursorrules true now (plain [(cursorrules_legacy, "rule text")])
     = Some (true, plain [(cursorrules_legacy, "rule text")]).
Proof.
  cbv zeta. split.
  - apply (proj1 (migrate_dry_and_missing false (mkDatetime 2026 11 3 12 0 0)
                    (plain []))).
    vm_compute. reflexivity.
  - apply (proj2 (migrate_dry_and_missing false (mkDatetime 2026 11 3 12 0 0)
                    (plain [(cursorrules_legacy, "rule text")]))).
    vm_compute. reflexivity.
Defined.





(** X19: without a legacy file a live rules synchronisation writes no
    file: files and links are as before and no directory is lost. *)
Theorem rules_sync_no_legacy (now : datetime) (m : fs) :
  FS.exists_ m cursorrules_legacy = false ->
  exists m' : fs,
    RulesSyncer.sync false now m = Some (true, m')
    /\ files m' = files m /\ links m' = links m /\ dirs m ⊆ dirs m'.
Proof.
  intros H. unfold RulesSyncer.sync. rewrite H.
  cbn [mbind option_bind negb]. eexists. split; [reflexivity|].
  destruct (negb (FS.path_exists m cursor_rules)).
  - split; [reflexivity|]. split; [reflexivity|].
    unfold ensure_dir; cbn [dirs]. set_solver.
  - split; [reflexivity|]. split; [reflexivity|]. set_solver.
Qed.

Lemma rules_sync_no_legacy_witness :
  exists m' : fs,
    RulesSyncer.sync false (mkDatetime 2026 11 3 12 0 0) (plain [])
    = Some (true, m')
    /\ files m' = files (plain []).
Proof.
  destruct (rules_sync_no_legacy (mkDatetime 2026 11 3 12 0 0) (plain []))
    as (m' & Hs & Hf & _).
  - vm_compute. reflexivity.
  - exists m'. split; [exact Hs|exact Hf].
Defined.



(** A live rules synchronisation with the legacy file present is the
    migration; the rules directory is there afterwards. *)
Lemma rules_sync_live_legacy (now : datetime) (m : fs) (c : string) :
  FS.read_bytes m cursorrules_legacy = Some c ->
  NoDup [FS.resolve m cursorrules_legacy; FS.resolve m new_path;
         FS.resolve m (backup_path now)] ->
  RulesSyncer.sync false now m
  = Some (true,
          FS.write_text (backup_path now) c
            (ensure_dir backup_dir
               (FS.write_text new_path (mdc_of (Py.universal_newlines c))
                  (ensure_dir cursor_rules m)))).
Proof.
  intros Hc Hnd. unfold RulesSyncer.sync.
  rewrite (exists_Some _ _ _ Hc), (migrate_live now m c Hc Hnd).
  cbn [mbind option_bind andb negb].
  set (m' := FS.write_text _ _ _).
  assert (E : FS.path_exists m' cursor_rules = true).
  { unfold FS.path_exists. apply orb_true_iff. right.
    apply bool_decide_eq_true_2. unfold m', FS.write_text, ensure_dir.
    cbn [dirs FS.ancestors map]. set_solver. }
  now rewrite E.
Qed.



(** Text read in text mode holds no carriage return, and reading such a
    text changes nothing. *)
Lemma universal_newlines_no_cr_aux (n : nat) :
  forall s : string,
    (String.length s <= n)%nat ->
    Py.contains "013" (Py.universal_newlines s) = false.
Proof.
  induction n as [|n IH]; intros s Hn.
  - destruct s; [reflexivity|simpl in Hn; lia].
  - destruct s as [|c r]; [reflexivity|]. cbn [String.length] in Hn.
    destruct (Ascii.eqb c "013") eqn:Ec.
    + apply Ascii.eqb_eq in Ec. subst c. destruct r as [|d r']; [reflexivity|].
      cbn [String.length] in Hn. destruct (Ascii.eqb d "010") eqn:Ed.
      * apply Ascii.eqb_eq in Ed. subst d. rewrite universal_newlines_cr_lf.
        cbn [Py.contains Ascii.eqb Bool.eqb]. apply IH. lia.
      * rewrite (universal_newlines_cr_other d r' Ed).
        cbn [Py.contains Ascii.eqb Bool.eqb]. apply IH. cbn [String.length]. lia.
    + rewrite (universal_newlines_other c r Ec). cbn [Py.contains].
      rewrite Ec. apply IH. lia.
Qed.

Lemma universal_newlines_id (s : string) :
  Py.contains "013" s = false -> Py.universal_newlines s = s.
Proof.
  induction s as [|c r IH]; [reflexivity|]. cbn [Py.contains].
  destruct (Ascii.eqb c "013") eqn:Ec; [discriminate|]. intros H.
  now rewrite (universal_newlines_other c r Ec), (IH H).
Qed.

(** X21: after a live rules synchronisation with a legacy file, reading
    the new rules file and parsing it gives the legacy text, as read and
    trimmed, under the provenance description with [alwaysApply] true. *)
Theorem rules_sync_reads_back (now : datetime) (m : fs) (c : string) :
  FS.read_bytes m cursorrules_legacy = Some c ->
  NoDup [FS.resolve m cursorrules_legacy; FS.resolve m new_path;
         FS.resolve m (backup_path now)] ->
  exists m' : fs,
    RulesSyncer.sync false now m = Some (true, m')
    /\ mdc_to_markdown <$> FS.read_text m' new_path
       = Some (Py.strip (Py.universal_newlines c),
               {[ "description" := VStr provenance;
                  "alwaysApply" := VBool true ]}).
Proof.
  intros Hc Hnd. eexists. split; [exact (rules_sync_live_legacy now m c Hc Hnd)|].
  destruct (migrate_live_reads now m c Hc Hnd) as (Hn & _ & _).
  unfold FS.read_text. rewrite Hn. cbn [fmap option_fmap option_map].
  rewrite universal_newlines_id.
  - now rewrite mdc_to_markdown_of_migrated.
  - unfold mdc_of. rewrite markdown_to_mdc_lines. cbn [truthy app Py.join].
    rewrite !contains_app.
    rewrite (universal_newlines_no_cr_aux _ c (Nat.le_refl _)). reflexivity.
Qed.

Lemma rules_sync_reads_back_witness :
  exists m' : fs,
    RulesSyncer.sync false (mkDatetime 2026 11 3 12 0 0)
      (plain [(cursorrules_legacy, "  rule text" +:+ String "013" LF)])
    = Some (true, m')
    /\ mdc_to_markdown <$> FS.read_text m' new_path
       = Some ("rule text",
               {[ "description" := VStr provenance;
                  "alwaysApply" := VBool true ]}).
Proof.
  apply (rules_sync_reads_back (mkDatetime 2026 11 3 12 0 0)
           (plain [(cursorrules_legacy, "  rule text" +:+ String "013" LF)])
           ("  rule text" +:+ String "013" LF)).
  - vm_compute. reflexivity.
  - refine (bool_decide_unpack _ _). vm_compute. exact I.
Defined.

(** ** The MCP template and the [.gitignore] entries *)

(** X22: [create_template] writes the template once: on a store without
    [.mcp.json] the dry run changes nothing, the live run leaves the
    template text in the file, and any later call refuses with [False]
    and leaves the file alone. *)
Theorem mcp_create_template_once (m : fs) :
  FS.exists_ m MCPSyncer.mcp_json = false ->
  MCPSyncer.create_template true m = (true, m)
  /\ exists m' : fs,
       MCPSyncer.create_template false m = (true, m')
       /\ FS.read_bytes m' MCPSyncer.mcp_json = Some MCPSyncer.template_text
       /\ (forall d : bool, MCPSyncer.create_template d m' = (false, m')).
Proof.
  intros H. unfold MCPSyncer.create_template. rewrite H. cbn [negb].
  split; [reflexivity|]. eexists. split; [reflexivity|].
  unfold safe_write_json. cbn [snd].
  assert (E : FS.read_bytes
                (FS.write_text MCPSyncer.mcp_json MCPSyncer.template_text
                   (ensure_dir (FS.parent MCPSyncer.mcp_json) m))
                MCPSyncer.mcp_json = Some MCPSyncer.template_text)
    by (apply read_bytes_write_eq; reflexivity).
  split; [exact E|]. intros d. now rewrite (exists_Some _ _ _ E).
Qed.

Lemma mcp_create_template_once_witness :
  exists m' : fs,
    MCPSyncer.create_template false (plain []) = (true, m')
    /\ MCPSyncer.create_template false m' = (false, m').
Proof.
  destruct (mcp_create_template_once (plain [])) as (_ & m' & H1 & _ & H2).
  - vm_compute. reflexivity.
  - exists m'. split; [exact H1|exact (H2 false)].
Defined.

Import ConfigSyncer.

(** The text the entries are looked up in is the file as read, or the
    empty text. *)
Lemma gitignore_existing (m : fs) :
  (if FS.exists_ m gitignore
   then default EmptyString (FS.read_text m gitignore) else EmptyString)
  = Py.universal_newlines (default EmptyString (FS.read_bytes m gitignore)).
Proof.
  unfold FS.exists_, FS.read_text.
  now destruct (FS.read_bytes m gitignore).
Qed.

(** With every entry already in the text nothing is done. *)
Lemma gitignore_noop (d : bool) (m : fs) :
  (forall e : string, In e entries_to_add ->
     Py.contains_str e
       (Py.universal_newlines (default EmptyString (FS.read_bytes m gitignore)))
     = true) ->
  _create_gitignore_entries d m = m.
Proof.
  intros H. unfold _create_gitignore_entries. rewrite gitignore_existing.
  unfold entries_to_add in *. cbn [List.filter].
  rewrite !H by (cbn [In]; tauto). reflexivity.
Qed.

(** After text beginning with a line feed was appended, an entry is in
    the text as read if it was there before or is in the appended text
    with and without its first line feed. *)
Lemma gitignore_entry_after (raw b0 e : string) :
  Py.contains_str e (Py.universal_newlines raw) = true
  \/ (Py.contains_str e (Py.universal_newlines (String "010" b0)) = true
      /\ Py.contains_str e (Py.universal_newlines b0) = true) ->
  Py.contains_str e (Py.universal_newlines (raw +:+ String "010" b0)) = true.
Proof.
  intros H.
  destruct (universal_newlines_app raw (String "010" b0))
    as (b' & -> & [-> | (b1 & [= <-] & ->)]).
  - destruct H as [H | [H _]];
      [now apply contains_str_app_l | now apply contains_str_app_r].
  - destruct H as [H | [_ H]];
      [now apply contains_str_app_l | now apply contains_str_app_r].
Qed.

(** The live run: nothing, or one append after which every entry is in
    the text as read. *)
Lemma gitignore_live (m : fs) :
  let raw := default EmptyString (FS.read_bytes m gitignore) in
  (_create_gitignore_entries false m = m
   /\ forall e : string, In e entries_to_add ->
        Py.contains_str e (Py.universal_newlines raw) = true)
  \/ exists added : string,
       _create_gitignore_entries false m
       = FS.write_text gitignore (raw +:+ added) m
       /\ (forall e : string, In e entries_to_add ->
             Py.contains_str e (Py.universal_newlines (raw +:+ added)) = true).
Proof.
  cbv zeta. unfold _create_gitignore_entries. rewrite gitignore_existing.
  set (raw := default EmptyString (FS.read_bytes m gitignore)).
  unfold entries_to_add. cbn [List.filter].
  destruct (Py.contains_str (LF +:+ "# AI Assistant local configs (not tracked)")
              (Py.universal_newlines raw)) eqn:E1;
    destruct (Py.contains_str ".claude/settings.local.json"
                (Py.universal_newlines raw)) eqn:E2;
    destruct (Py.contains_str ".claude/backups/" (Py.universal_newlines raw)) eqn:E3;
    cbn [negb];
    try (left; split; [reflexivity|];
         intros e [<- | [<- | [<- | []]]]; assumption);
    right; eexists; (split; [reflexivity|]);
    intros e [<- | [<- | [<- | []]]];
    apply gitignore_entry_after;
    first [ left; assumption | right; split; vm_compute; reflexivity ].
Qed.

(** X23: a second live run right after a first one changes nothing: the
    entries are added at most once. *)
Theorem gitignore_idempotent (m : fs) :
  _create_gitignore_entries false (_create_gitignore_entries false m)
  = _create_gitignore_entries false m.
Proof.
  destruct (gitignore_live m) as [[E _] | (added & E & H)]; rewrite E.
  - exact E.
  - apply gitignore_noop. intros e He.
    rewrite read_bytes_write_eq by reflexivity. exact (H e He).
Qed.

Lemma string_app_nil_r (s : string) : s +:+ EmptyString = s.
Proof.
  induction s as [|c s IH]; [reflexivity|].
  change (String c (s +:+ EmptyString) = String c s). now rewrite IH.
Qed.

(** X24: a live run only appends to [.gitignore]: afterwards the file
    holds what it held, or nothing if it was missing, followed by the
    added text; every entry occurs in it as read; and the links and every
    other file are as before. *)
Theorem gitignore_append_only (m : fs) :
  let m' := _create_gitignore_entries false m in
  (exists added : string,
      FS.read_bytes m' gitignore
      = Some (default EmptyString (FS.read_bytes m gitignore) +:+ added))
  /\ (forall e : string, In e entries_to_add ->
        Py.contains_str e
          (Py.universal_newlines
             (default EmptyString (FS.read_bytes m' gitignore))) = true)
  /\ links m' = links m
  /\ (forall q : list string,
        FS.resolve m q <> FS.resolve m gitignore ->
        FS.read_bytes m' q = FS.read_bytes m q).
Proof.
  cbv zeta.
  destruct (gitignore_live m) as [[E H] | (added & E & H)]; rewrite E.
  - split; [|split; [exact H|split; reflexivity]].
    exists EmptyString. rewrite string_app_nil_r.
    destruct (FS.read_bytes m gitignore) as [r|] eqn:Er; [reflexivity|].
    specialize (H ".claude/backups/" ltac:(cbn [In entries_to_add]; tauto)).
    cbn [default] in H. vm_compute in H. discriminate.
  - split; [exists added; apply read_bytes_write_eq; reflexivity|].
    split.
    + intros e He. rewrite read_bytes_write_eq by reflexivity. exact (H e He).
    + split; [reflexivity|]. intros q Hq. apply read_bytes_write_ne. congruence.
Qed.
